(** * Coxswain2Fit: the TCX extractor, the document walker and the time aligner

    A shallow embedding of [parse_tcx.py].  The XML document is a tree of
    elements as lxml exposes it (tag in Clark notation, attribute dictionary,
    text, children); Python dictionaries are finite maps with string keys;
    a Python exception is the [Raise] branch of the [result] type; a pandas
    DataFrame is a list of column names with one dictionary per row, where a
    column that a row does not bind is a missing value (NaN / NaT). *)

From Stdlib Require Import ZArith QArith Ascii.
From stdpp Require Import base option list gmap strings.

Local Open Scope Z_scope.

(** ** Python exceptions and fallible computations *)

Inductive exn : Type :=
| AttributeError   (* attribute access on None *)
| TypeError        (* None[0], float(None), tz-naive astimezone *)
| IndexError       (* elem[0] on an element without children, iloc[0] on an empty frame *)
| KeyError         (* lap.attrib['StartTime'], a column that does not exist *)
| ValueError.      (* float('abc'), unsorted merge keys, nothing to concatenate *)

Inductive result (A : Type) : Type :=
| OK (a : A)
| Raise (e : exn).
Arguments OK {A} a.
Arguments Raise {A} e.

#[global] Instance result_ret : MRet result := fun _ a => OK a.
#[global] Instance result_bind : MBind result := fun _ _ f m =>
  match m with
  | OK a => f a
  | Raise e => Raise e
  end.

#[global] Instance result_fmap : FMap result := fun _ _ f m =>
  match m with
  | OK a => OK (f a)
  | Raise e => Raise e
  end.

Definition is_OK {A} (r : result A) : Prop := exists a, r = OK a.
Definition raises {A} (r : result A) : Prop := exists e, r = Raise e.

(** [x.attr] where [x] may be None. *)
Definition deref {A} (x : option A) : result A :=
  match x with
  | Some a => OK a
  | None => Raise AttributeError
  end.

(** A for loop whose body may raise: the state is threaded from left to
    right and the first exception ends the loop. *)
Fixpoint for_each {S X : Type} (body : S -> X -> result S) (xs : list X) (s : S) : result S :=
  match xs with
  | [] => OK s
  | x :: xs' => s' ← body s x; for_each body xs' s'
  end.

(** ** The document tree (lxml.etree._Element) *)

#[warnings="-register-all"]
Inductive Element : Type :=
| mkElement (tag : string) (attrib : gmap string string)
            (text : option string) (children : list Element).

Definition tag (e : Element) : string := let 'mkElement t _ _ _ := e in t.
Definition attrib (e : Element) : gmap string string := let 'mkElement _ a _ _ := e in a.
Definition text (e : Element) : option string := let 'mkElement _ _ x _ := e in x.
Definition children (e : Element) : list Element := let 'mkElement _ _ _ c := e in c.

Definition NAMESPACES : list (string * string) :=
  [ ("ns",  "http://www.garmin.com/xmlschemas/TrainingCenterDatabase/v2");
    ("ns2", "http://www.garmin.com/xmlschemas/UserProfile/v2");
    ("ns3", "http://www.garmin.com/xmlschemas/ActivityExtension/v2");
    ("ns4", "http://www.garmin.com/xmlschemas/ProfileExtension/v1");
    ("ns5", "http://www.garmin.com/xmlschemas/ActivityGoals/v1") ].

Fixpoint prefix_uri (namespaces : list (string * string)) (prefix : string) : string :=
  match namespaces with
  | [] => ""
  | (p, uri) :: rest => if String.eqb p prefix then uri else prefix_uri rest prefix
  end.

(** The two ElementPath forms the program uses: ['p:Name'] selects among the
    children of the context node, ['.//p:Name'] among all its descendants. *)
Inductive path : Type :=
| child_path (prefix name : string)
| descendant_path (prefix name : string).

(** [{uri}Name], the tag a prefixed name stands for. *)
Definition clark (namespaces : list (string * string)) (prefix name : string) : string :=
  "{" +:+ prefix_uri namespaces prefix +:+ "}" +:+ name.

Definition has_tag (t : string) (e : Element) : bool := String.eqb (tag e) t.

(** All proper descendants of a node in document order. *)
Fixpoint descendants (e : Element) : list Element :=
  let 'mkElement _ _ _ cs := e in
  (fix over (l : list Element) : list Element :=
     match l with
     | [] => []
     | c :: l' => c :: descendants c ++ over l'
     end) cs.

Definition candidates (e : Element) (p : path) : list Element :=
  match p with
  | child_path _ _ => children e
  | descendant_path _ _ => descendants e
  end.

Definition path_tag (namespaces : list (string * string)) (p : path) : string :=
  match p with
  | child_path prefix name | descendant_path prefix name => clark namespaces prefix name
  end.

(** [e.findall(p, namespaces)] and [e.find(p, namespaces)]. *)
Definition findall (e : Element) (p : path) (namespaces : list (string * string)) : list Element :=
  List.filter (has_tag (path_tag namespaces p)) (candidates e p).

Definition find (e : Element) (p : path) (namespaces : list (string * string)) : option Element :=
  head (findall e p namespaces).

(** The tree relation behind the two forms: [x] lies below [e], at any depth. *)
Inductive descendant (x : Element) : Element -> Prop :=
| descendant_child e : x ∈ children e -> descendant x e
| descendant_deeper c e : c ∈ children e -> descendant x c -> descendant x e.

(** ** Python values and the built-in conversions [float] and [int] *)

(** What the program passes to [float] and [int]: an element's text (a string,
    or None for an element without text) or the integer literal 0. *)
Inductive pyarg : Type :=
| PyNone
| PyStr (s : string)
| PyInt (n : Z).

Definition of_text (t : option string) : pyarg :=
  match t with
  | Some s => PyStr s
  | None => PyNone
  end.

Definition truthy (a : pyarg) : bool :=
  match a with
  | PyNone => false
  | PyStr s => negb (String.eqb s "")
  | PyInt n => negb (n =? 0)
  end.

(** [a or b] *)
Definition py_or (a b : pyarg) : pyarg := if truthy a then a else b.

(** The characters [float] and [int] strip from both ends of their argument
    (ASCII part: tab, line feed, vertical tab, form feed, carriage return,
    the separators 28 to 31, and space). *)
Definition py_isspace (c : ascii) : bool :=
  let n := nat_of_ascii c in
  ((9 <=? n)%nat && (n <=? 13)%nat) || ((28 <=? n)%nat && (n <=? 32)%nat).

Fixpoint lstrip (l : list ascii) : list ascii :=
  match l with
  | c :: l' => if py_isspace c then lstrip l' else l
  | [] => []
  end.

Definition strip (l : list ascii) : list ascii := rev (lstrip (rev (lstrip l))).

(** The longest prefix of decimal digits: its value on top of [acc], its
    length on top of [len], and what follows it. *)
Fixpoint take_digits (l : list ascii) (acc : Z) (len : nat) : Z * nat * list ascii :=
  match l with
  | c :: l' =>
      match Ascii.is_nat c with
      | Some d => take_digits l' (10 * acc + Z.of_nat d) (S len)
      | None => (acc, len, l)
      end
  | [] => (acc, len, [])
  end.

Definition take_sign (l : list ascii) : bool * list ascii :=
  match l with
  | "-"%char :: l' => (true, l')
  | "+"%char :: l' => (false, l')
  | _ => (false, l)
  end.

Definition signed (neg : bool) (n : Z) : Z := if neg then - n else n.

(** The optional exponent part of a decimal literal, which must end the text. *)
Definition take_exponent (l : list ascii) : option Z :=
  match l with
  | [] => Some 0
  | c :: l' =>
      if (Ascii.eqb c "e" || Ascii.eqb c "E")%char then
        let '(neg, l'') := take_sign l' in
        let '(e, n, rest) := take_digits l'' 0 0%nat in
        match n, rest with
        | S _, [] => Some (signed neg e)
        | _, _ => None
        end
      else None
  end.

(** [m * 10^e] as a reduced fraction. *)
Definition scale10 (m e : Z) : Q :=
  Qred (if 0 <=? e then Qmake (m * 10 ^ e) 1 else Qmake m (Z.to_pos (10 ^ (- e)))).

(** The number a decimal literal denotes: optional sign, digits with an
    optional point (at least one digit), optional exponent, surrounded by
    optional white space.  The rounding of that number to a binary double,
    digit-group underscores and the spellings of infinities and NaN are
    outside this model. *)
Definition parse_float (s : string) : option Q :=
  let l := strip (String.list_ascii_of_string s) in
  let '(neg, l) := take_sign l in
  let '(ip, ni, l) := take_digits l 0 0%nat in
  let '(m, nf, l) :=
    match l with
    | "."%char :: l' => take_digits l' ip 0%nat
    | _ => (ip, 0%nat, l)
    end in
  match (ni + nf)%nat with
  | O => None
  | S _ => e ← take_exponent l; Some (scale10 (signed neg m) (e - Z.of_nat nf))
  end.

Definition parse_int (s : string) : option Z :=
  let l := strip (String.list_ascii_of_string s) in
  let '(neg, l) := take_sign l in
  let '(n, len, rest) := take_digits l 0 0%nat in
  match len, rest with
  | S _, [] => Some (signed neg n)
  | _, _ => None
  end.

(** [float(a)] *)
Definition py_float (a : pyarg) : result Q :=
  match a with
  | PyNone => Raise TypeError
  | PyStr s => from_option OK (Raise ValueError) (parse_float s)
  | PyInt n => OK (Qmake n 1)
  end.

(** [int(a)] *)
Definition py_int (a : pyarg) : result Z :=
  match a with
  | PyNone => Raise TypeError
  | PyStr s => from_option OK (Raise ValueError) (parse_int s)
  | PyInt n => OK n
  end.

(** What an extracted field holds. Times count microseconds. *)
Inductive value : Type :=
| VTime (t : Z)
| VFloat (x : Q)
| VInt (n : Z).

(** ** Timestamps *)

(** A pandas Timestamp: the reading of the wall clock and, when the value is
    timezone-aware, the offset of that clock from UTC. *)
Record Timestamp : Type := mkTimestamp { wall : Z; utcoffset : option Z }.

(** What the run depends on besides the document: the two date parsers
    ([pd.to_datetime], [dateutil.parser.parse], the latter called only for
    the log line) and the UTC offset of the machine's zone at an instant
    ([tzlocal.get_localzone]).  Texts that pandas reads as NaT are outside
    this model. *)
Class Runtime : Type := {
  to_datetime : string -> result Timestamp;
  dp_parse : string -> result unit;
  local_utcoffset : Z -> Z
}.

Section Extractor.
Context {rt : Runtime}.

(** [dt.astimezone(local_timezone).replace(tzinfo=None)] *)
Definition astimezone_local_naive (dt : Timestamp) : result Z :=
  match utcoffset dt with
  | None => Raise TypeError
  | Some off => let instant := wall dt - off in OK (instant + local_utcoffset instant)
  end.

Definition convert_local (str_datetime : option string) : result Z :=
  match str_datetime with
  | None => Raise AttributeError      (* to_datetime(None) is None *)
  | Some s =>
      dt_aware ← to_datetime s;
      astimezone_local_naive dt_aware
  end.

(** ** Field extractor *)

(** The pattern of every optional field:
    [if elem is not None: data[key] = conv(elem)]. *)
Definition set_if_present (data : gmap string value) (key : string)
    (elem : option Element) (conv : Element -> result value) : result (gmap string value) :=
  match elem with
  | Some e => v ← conv e; OK (<[key := v]> data)
  | None => OK data
  end.

(** [float(elem.text)] and [int(elem.text)] *)
Definition float_text (elem : Element) : result value :=
  x ← py_float (of_text (text elem)); OK (VFloat x).

Definition int_text (elem : Element) : result value :=
  n ← py_int (of_text (text elem)); OK (VInt n).

(** [elem.find('ns:Value', NAMESPACES)], about to be dereferenced. *)
Definition value_child (elem : Element) : result Element :=
  deref (find elem (child_path "ns" "Value") NAMESPACES).

(** [float(elem.find('ns:Value', NAMESPACES).text)], and the same with [int]. *)
Definition float_value (elem : Element) : result value :=
  v ← value_child elem; float_text v.

Definition int_value (elem : Element) : result value :=
  v ← value_child elem; int_text v.

(** [float(watt_elem.text or 0)] *)
Definition float_text_or_0 (elem : Element) : result value :=
  x ← py_float (py_or (of_text (text elem)) (PyInt 0)); OK (VFloat x).

Definition get_tcx_lap_data (lap : Element) : result (gmap string value) :=
  start_time_str ← from_option OK (Raise KeyError) (attrib lap !! "StartTime");
  start_time ← convert_local (Some start_time_str);
  let data : gmap string value := <["start_time" := VTime start_time]> ∅ in
  _ ← dp_parse start_time_str;     (* evaluated for the log line *)
  data ← set_if_present data "distance"
           (find lap (child_path "ns" "DistanceMeters") NAMESPACES) float_text;
  data ← set_if_present data "calories"
           (find lap (child_path "ns" "Calories") NAMESPACES) int_text;
  data ← set_if_present data "total_time"
           (find lap (child_path "ns" "TotalTimeSeconds") NAMESPACES) float_text;
  data ← set_if_present data "max_speed"
           (find lap (child_path "ns" "MaximumSpeed") NAMESPACES) float_text;
  data ← set_if_present data "max_hr"
           (find lap (child_path "ns" "MaximumHeartRateBpm") NAMESPACES) float_value;
  data ← set_if_present data "avg_hr"
           (find lap (child_path "ns" "AverageHeartRateBpm") NAMESPACES) float_value;
  OK data.

Definition get_tcx_trackpoint_data (trackpoint : Element) : result (gmap string value) :=
  time_elem ← deref (find trackpoint (child_path "ns" "Time") NAMESPACES);
  time ← convert_local (text time_elem);
  let data : gmap string value := <["time" := VTime time]> ∅ in
  data ← set_if_present data "cadence"
           (find trackpoint (child_path "ns" "Cadence") NAMESPACES) float_text;
  data ← set_if_present data "distance"
           (find trackpoint (child_path "ns" "DistanceMeters") NAMESPACES) float_text;
  data ← set_if_present data "heart_rate"
           (find trackpoint (child_path "ns" "HeartRateBpm") NAMESPACES) int_value;
  data ← set_if_present data "watt"
           (find trackpoint (descendant_path "ns3" "Watts") NAMESPACES) float_text_or_0;
  OK data.

(** ** Document walker *)

Definition LAPS_COLUMN_NAMES : list string :=
  ["number"; "start_time"; "distance"; "calories"; "total_time"; "max_speed"; "max_hr"; "avg_hr"].

Definition TRACKPOINT_COLUMN_NAMES : list string :=
  ["time"; "distance"; "heart_rate"; "watt"; "cadence"].

(** A DataFrame: the name and the labels of the index, the column names in
    order, and one dictionary per row that binds a column exactly when the
    row has a value there. *)
Record DataFrame : Type := mkDataFrame {
  index_name : option string;
  index : list (option value);
  columns : list string;
  rows : list (gmap string value)
}.

Definition RangeIndex (n : nat) : list (option value) :=
  (fun i => Some (VInt (Z.of_nat i))) <$> seq 0 n.

(** The part of a record that falls under the given columns. *)
Definition restrict (cols : list string) (d : gmap string value) : gmap string value :=
  filter (fun kv => kv.1 ∈ cols) d.

(** [pd.DataFrame(data, columns=cols)] for a list of dictionaries. *)
Definition pd_DataFrame (data : list (gmap string value)) (cols : list string) : DataFrame :=
  {| index_name := None;
     index := RangeIndex (length data);
     columns := cols;
     rows := restrict cols <$> data |}.

(** [df.set_index(key, inplace=True)] *)
Definition set_index (key : string) (df : DataFrame) : result DataFrame :=
  if bool_decide (key ∈ columns df) then
    OK {| index_name := Some key;
          index := (fun r : gmap string value => r !! key) <$> rows df;
          columns := List.filter (fun c => negb (String.eqb c key)) (columns df);
          rows := delete key <$> rows df |}
  else Raise KeyError.

(** Truth value of a dictionary: it is not empty. *)
Definition dict_truthy (d : gmap string value) : bool := negb (Nat.eqb (size d) 0).

(** Body of the loop over the track points of one lap. *)
Definition walk_point (lap_no : Z) (points_data : list (gmap string value)) (point : Element)
    : result (list (gmap string value)) :=
  single_point_data ← get_tcx_trackpoint_data point;
  if dict_truthy single_point_data
  then OK (points_data ++ [<["lap" := VInt lap_no]> single_point_data])
  else OK points_data.

(** The state of the loop over the laps: [points_data], [laps_data], [lap_no]. *)
Definition walk_state : Type := list (gmap string value) * list (gmap string value) * Z.

Definition walk_lap (st : walk_state) (lap : Element) : result walk_state :=
  let '(points_data, laps_data, lap_no) := st in
  single_lap_data ← get_tcx_lap_data lap;
  let single_lap_data := <["number" := VInt lap_no]> single_lap_data in
  let laps_data := laps_data ++ [single_lap_data] in
  track ← deref (find lap (child_path "ns" "Track") NAMESPACES);
  points_data ← for_each (walk_point lap_no)
                  (findall track (child_path "ns" "Trackpoint") NAMESPACES) points_data;
  OK (points_data, laps_data, lap_no + 1).

(** [root.find('ns:Activities', NAMESPACES)[0]] *)
Definition first_activity (root : Element) : result Element :=
  match find root (child_path "ns" "Activities") NAMESPACES with
  | None => Raise TypeError
  | Some activities =>
      match children activities with
      | [] => Raise IndexError
      | activity :: _ => OK activity
      end
  end.

(** The lists the walk collects before the tables are built. *)
Definition walk (root : Element) : result walk_state :=
  activity ← first_activity root;
  for_each walk_lap (findall activity (child_path "ns" "Lap") NAMESPACES) ([], [], 1).

(** [get_dataframes], from the root of the parsed file on. *)
Definition get_dataframes (root : Element) : result (DataFrame * DataFrame) :=
  st ← walk root;
  let '(points_data, laps_data, _) := st in
  laps_df ← set_index "number" (pd_DataFrame laps_data LAPS_COLUMN_NAMES);
  let points_df := pd_DataFrame points_data TRACKPOINT_COLUMN_NAMES in
  OK (laps_df, points_df).

(** *** Vocabulary of the properties of the extractor *)

(** The optional fields of a lap and of a track point that are looked up
    among the children of the node: key of the record, name of the element. *)
Definition lap_optional_fields : list (string * string) :=
  [ ("distance", "DistanceMeters"); ("calories", "Calories");
    ("total_time", "TotalTimeSeconds"); ("max_speed", "MaximumSpeed");
    ("max_hr", "MaximumHeartRateBpm"); ("avg_hr", "AverageHeartRateBpm") ].

(** If the node has a child of that name, the (first such) child converts. *)
Definition converts_if_present (e : Element) (name : string)
    (conv : Element -> result value) : Prop :=
  forall x, find e (child_path "ns" name) NAMESPACES = Some x -> is_OK (conv x).

(** A lap whose start time and present optional fields are readable. *)
Definition lap_well_formed (lap : Element) : Prop :=
  (exists s, attrib lap !! "StartTime" = Some s /\
             is_OK (convert_local (Some s)) /\ is_OK (dp_parse s)) /\
  converts_if_present lap "DistanceMeters" float_text /\
  converts_if_present lap "Calories" int_text /\
  converts_if_present lap "TotalTimeSeconds" float_text /\
  converts_if_present lap "MaximumSpeed" float_text /\
  converts_if_present lap "MaximumHeartRateBpm" float_value /\
  converts_if_present lap "AverageHeartRateBpm" float_value.

(** A track point whose time and present optional fields other than the
    power are readable. *)
Definition trackpoint_fields_ok (tp : Element) : Prop :=
  (exists t, find tp (child_path "ns" "Time") NAMESPACES = Some t /\
             is_OK (convert_local (text t))) /\
  converts_if_present tp "Cadence" float_text /\
  converts_if_present tp "DistanceMeters" float_text /\
  converts_if_present tp "HeartRateBpm" int_value.

(** What one round of the loop over the track points appends for a point. *)
Definition stamped (lap_no : Z) (tp : Element) (p : gmap string value) : Prop :=
  exists d, get_tcx_trackpoint_data tp = OK d /\ p = <["lap" := VInt lap_no]> d.

End Extractor.

(** A text that consists of white space only. *)
Definition blank (s : string) : Prop :=
  Forall (fun c => py_isspace c = true) (String.list_ascii_of_string s).

(** ** The pandas operations of the aligner *)

#[global] Instance Q_eq_dec : EqDecision Q.
Proof. solve_decision. Defined.

#[global] Instance value_eq_dec : EqDecision value.
Proof. solve_decision. Defined.

(** The time a row holds in a column, if it holds one. *)
Definition time_of (col : string) (r : gmap string value) : option Z :=
  match r !! col with
  | Some (VTime t) => Some t
  | _ => None
  end.

(** [df[col]] read as a series of times, missing values skipped. *)
Definition column_times (df : DataFrame) (col : string) : list Z :=
  omap (time_of col) (rows df).

(** [series.min()]: NaT ([None]) for a series without values. *)
Definition series_min (l : list Z) : option Z :=
  match l with
  | [] => None
  | x :: l' => Some (foldl Z.min x l')
  end.

(** [pd.concat(frames)]: the rows and labels one after the other, the
    columns in order of first appearance. *)
Definition pd_concat (frames : list DataFrame) : result DataFrame :=
  match frames with
  | [] => Raise ValueError
  | f :: _ =>
      OK {| index_name := index_name f;
            index := concat (index <$> frames);
            columns := foldl (fun acc g => acc ++ list_difference (columns g) acc) [] frames;
            rows := concat (rows <$> frames) |}
  end.

(** Order of [sort_values] on a time column: ascending, missing values last. *)
Definition key_le (a b : option Z) : bool :=
  match a, b with
  | Some x, Some y => x <=? y
  | _, None => true
  | None, Some _ => false
  end.

Fixpoint insert_row (col : string) (x : option value * gmap string value)
    (l : list (option value * gmap string value)) : list (option value * gmap string value) :=
  match l with
  | [] => [x]
  | y :: l' =>
      if key_le (time_of col y.2) (time_of col x.2)
      then y :: insert_row col x l'
      else x :: l
  end.

(** [df.sort_values(by=col, ascending=True)]; rows with equal keys keep their
    order here (pandas leaves their order open). *)
Definition sort_values (col : string) (df : DataFrame) : DataFrame :=
  let sorted := foldl (fun acc x => insert_row col x acc) [] (zip (index df) (rows df)) in
  {| index_name := index_name df;
     index := fst <$> sorted;
     columns := columns df;
     rows := snd <$> sorted |}.

(** [td.total_seconds()] of a difference of two times: NaN ([None]) for NaT. *)
Definition total_seconds (difference : option Z) : option Q :=
  (fun d => Qmake d 1000000) <$> difference.

Definition round_half_even (q : Q) : Z :=
  let n := Qnum q in
  let d := Zpos (Qden q) in
  let fl := n / d in
  let r2 := 2 * (n mod d) in
  if r2 <? d then fl
  else if d <? r2 then fl + 1
  else if Z.even fl then fl else fl + 1.

(** [timedelta(seconds=x)], in microseconds. *)
Definition timedelta (seconds : option Q) : result Z :=
  match seconds with
  | None => Raise ValueError
  | Some s => OK (round_half_even (Qmult s (Qmake 1000000 1)))
  end.

Definition add_timedelta (td : Z) (v : value) : value :=
  match v with
  | VTime t => VTime (t + td)
  | other => other
  end.

(** [df[col] = df[col] + td] on a column of times. *)
Definition shift_column (col : string) (td : Z) (df : DataFrame) : DataFrame :=
  {| index_name := index_name df;
     index := index df;
     columns := columns df;
     rows := alter (add_timedelta td) col <$> rows df |}.

(** [df[cols]] *)
Definition select (cols : list string) (df : DataFrame) : result DataFrame :=
  if forallb (fun c => bool_decide (c ∈ columns df)) cols then
    OK {| index_name := index_name df;
          index := index df;
          columns := cols;
          rows := restrict cols <$> rows df |}
  else Raise KeyError.

(** *** merge_asof *)

(** The table from group key to the last position seen with it. *)
Definition hash_table : Type := list (option value * Z).

Definition set_item (k : option value) (pos : Z) (h : hash_table) : hash_table := (k, pos) :: h.

Fixpoint get_item (k : option value) (h : hash_table) : option Z :=
  match h with
  | [] => None
  | (k', pos) :: h' => if decide (k = k') then Some pos else get_item k h'
  end.

(** The inner while loop: over the right rows from [right_pos] on, as long
    as their key is at most the key of the left row. *)
Fixpoint advance (right : list (Z * option value)) (left_value : Z)
    (right_pos : Z) (h : hash_table) : Z * hash_table :=
  match right with
  | [] => (right_pos, h)
  | (right_value, right_by) :: right' =>
      if right_value <=? left_value
      then advance right' left_value (right_pos + 1) (set_item right_by right_pos h)
      else (right_pos, h)
  end.

(** The loop over the left rows; the result is [right_indexer], with -1 for
    a left row without a match. *)
Fixpoint asof_sweep (right left : list (Z * option value))
    (right_pos : Z) (h : hash_table) : list Z :=
  match left with
  | [] => []
  | (left_value, left_by) :: left' =>
      let right_pos := if right_pos <? 0 then 0 else right_pos in
      let '(right_pos, h) :=
        advance (drop (Z.to_nat right_pos) right) left_value right_pos h in
      let right_pos := right_pos - 1 in
      from_option id (-1) (get_item left_by h) :: asof_sweep right left' right_pos h
  end.

(** pandas' [asof_join_backward_on_X_by_Y] (exact matches allowed, no
    tolerance): both sides are lists of (on value, by value). *)
Definition asof_join_backward_on_X_by_Y (left right : list (Z * option value)) : list Z :=
  asof_sweep right left 0 [].

(** The merge keys of a frame: every row must hold a time in [on]. *)
Definition merge_keys (df : DataFrame) (on by_ : string) : result (list (Z * option value)) :=
  from_option OK (Raise ValueError)
    (mapM (fun r : gmap string value => (fun t => (t, r !! by_)) <$> time_of on r) (rows df)).

Fixpoint is_monotonic (l : list Z) : bool :=
  match l with
  | x :: (y :: _) as l' => (x <=? y) && is_monotonic l'
  | _ => true
  end.

(** One row of the merge: the left row, and the right row found for it
    without the key columns. *)
Definition merge_row (right : DataFrame) (on by_ : string)
    (l : gmap string value) (j : Z) : gmap string value :=
  if j <? 0 then l
  else match rows right !! Z.to_nat j with
       | Some r => l ∪ delete on (delete by_ r)
       | None => l
       end.

(** [pd.merge_asof(left, right, on=on, by=by_)] with the defaults
    (direction backward, exact matches allowed). *)
Definition merge_asof (left right : DataFrame) (on by_ : string) : result DataFrame :=
  lk ← merge_keys left on by_;
  rk ← merge_keys right on by_;
  if is_monotonic lk.*1 && is_monotonic rk.*1 then
    let right_indexer := asof_join_backward_on_X_by_Y lk rk in
    OK {| index_name := None;
          index := RangeIndex (length (rows left));
          columns := columns left ++ list_difference (columns right) [on; by_];
          rows := zip_with (merge_row right on by_) (rows left) right_indexer |}
  else Raise ValueError.

(** ** Time aligner *)

(** What the script holds after lines 163 to 197: the tables of the wrist
    device as loaded, the tables of the rowing machine concatenated, sorted
    and shifted, and the shift in microseconds. *)
Record alignment : Type := mkAlignment {
  offset : Z;
  laps_garmin : DataFrame;
  points_garmin : DataFrame;
  laps_concept2 : DataFrame;
  points_concept2 : DataFrame
}.

Definition align (laps_df_garmin points_df_garmin : DataFrame)
    (laps_dfs_concept2 points_dfs_concept2 : list DataFrame) : result alignment :=
  laps_df_concept2 ← pd_concat laps_dfs_concept2;
  points_df_concept2 ← pd_concat points_dfs_concept2;
  let laps_df_concept2 := sort_values "start_time" laps_df_concept2 in
  let points_df_concept2 := sort_values "time" points_df_concept2 in
  let garmin_start := series_min (column_times laps_df_garmin "start_time") in
  let concept2_start := series_min (column_times laps_df_concept2 "start_time") in
  let difference := (g ← garmin_start; c ← concept2_start; Some (g - c)) in
  let total_seconds := total_seconds difference in
  td ← timedelta total_seconds;
  let laps_df_concept2 := shift_column "start_time" td laps_df_concept2 in
  let points_df_concept2 := shift_column "time" td points_df_concept2 in
  OK {| offset := td;
        laps_garmin := laps_df_garmin;
        points_garmin := points_df_garmin;
        laps_concept2 := laps_df_concept2;
        points_concept2 := points_df_concept2 |}.

(** Line 200: the merge of the two track point tables. *)
Definition merged_dataframe (a : alignment) : result DataFrame :=
  left ← select ["time"; "distance"; "watt"; "cadence"] (points_concept2 a);
  right ← select ["time"; "heart_rate"] (points_garmin a);
  merge_asof left right "time" "time".

(** *** Vocabulary of the properties of the aligner *)

(** [m] is the earliest of the times [l]. *)
Definition is_earliest (m : Z) (l : list Z) : Prop :=
  m ∈ l /\ forall x, x ∈ l -> m <= x.


(** The heart rates of a table, row by row. *)
Definition heart_rates (df : DataFrame) : list (option value) :=
  (fun r : gmap string value => r !! "heart_rate") <$> rows df.

(** The join as the specification words it, for comparison with
    [merge_asof]: the heart rate of the most recent sample whose time is at
    most [t], and none before the first sample. *)
Definition carried_forward (samples : list (gmap string value)) (t : Z) : option value :=
  last (List.filter (fun s => from_option (fun ts => ts <=? t) false (time_of "time" s)) samples)
    ≫= (fun s => s !! "heart_rate").

(** What [merge_asof] attaches when the group key is the time itself: the
    heart rate of the last sample whose time equals [t]. *)
Definition same_time_heart_rate (samples : list (gmap string value)) (t : Z) : option value :=
  last (List.filter (fun s => bool_decide (time_of "time" s = Some t)) samples)
    ≫= (fun s => s !! "heart_rate").

(** The merge keys of a table that is grouped by its time column. *)
Definition keyed (times : list Z) : list (Z * option value) :=
  (fun t => (t, Some (VTime t))) <$> times.

(** [j] is the position of the last of [times] equal to [t], or -1 when
    there is none. *)
Definition exact_match (times : list Z) (t : Z) (j : Z) : Prop :=
  (j = -1 /\ t ∉ times) \/
  (0 <= j /\ times !! Z.to_nat j = Some t /\
   forall j', (Z.to_nat j < j')%nat -> times !! j' <> Some t).

(** The table [h] holds, for every time, the last position below [n] at
    which [times] has it. *)
Definition represents (h : hash_table) (times : list Z) (n : nat) : Prop :=
  forall t,
    match get_item (Some (VTime t)) h with
    | Some p =>
        0 <= p /\ (Z.to_nat p < n)%nat /\ times !! Z.to_nat p = Some t /\
        forall j, (Z.to_nat p < j < n)%nat -> times !! j <> Some t
    | None => forall j, (j < n)%nat -> times !! j <> Some t
    end.

(** ** The rest of the script *)

(** The track points the walk visits: for every lap of the activity, in
    document order, the Trackpoint children of the first Track of the lap. *)
Definition walked_points (activity : Element) : list Element :=
  lap ← findall activity (child_path "ns" "Lap") NAMESPACES;
  from_option (fun track => findall track (child_path "ns" "Trackpoint") NAMESPACES) []
    (find lap (child_path "ns" "Track") NAMESPACES).



(** [x] is the first child of [e] with the name [name]. *)
Definition first_child (e : Element) (name : string) (x : Element) : Prop :=
  exists before after,
    children e = before ++ x :: after /\
    tag x = clark NAMESPACES "ns" name /\
    Forall (fun c => tag c <> clark NAMESPACES "ns" name) before.


(** Ascending order of the keys of [sort_values], missing keys last. *)
Fixpoint keys_sorted (l : list (option Z)) : Prop :=
  match l with
  | [] => True
  | a :: l' => Forall (fun b => key_le a b = true) l' /\ keys_sorted l'
  end.

(** *** Lines 201 and 202: the duration and its clock reading *)

(** [td.seconds]: the seconds of a duration within its day. *)
Definition dt_seconds (td : Z) : Z := (td / 1000000) mod 86400.

(** [pd.to_datetime(s, unit='s').time()]: hour, minute and second of the
    time of day [s] seconds after the epoch. *)
Definition clock_time (s : Z) : Z * Z * Z := ((s / 3600) mod 24, (s / 60) mod 60, s mod 60).

(** The merged table with its two derived columns. *)
Record report : Type := mkReport {
  merged : DataFrame;
  duration : list (option Z);
  hhmmss_1 : list (option (Z * Z * Z))
}.

(** [merged['duration'] = (merged['time'] - merged['time'].iloc[0]).dt.seconds]
    and [merged['hhmmss_1'] = pd.to_datetime(merged['duration'], unit='s').dt.time] *)
Definition add_duration (m : DataFrame) : result report :=
  match rows m with
  | [] => Raise IndexError
  | first :: _ =>
      let duration :=
        (fun r : gmap string value =>
           t ← time_of "time" r; t0 ← time_of "time" first; Some (dt_seconds (t - t0)))
          <$> rows m in
      OK {| merged := m;
            duration := duration;
            hhmmss_1 := fmap clock_time <$> duration |}
  end.

(** Lines 163 to 202 in one piece. *)
Definition aligned_report (laps_df_garmin points_df_garmin : DataFrame)
    (laps_dfs_concept2 points_dfs_concept2 : list DataFrame) : result report :=
  a ← align laps_df_garmin points_df_garmin laps_dfs_concept2 points_dfs_concept2;
  m ← merged_dataframe a;
  add_duration m.

(** *** Lines 153 to 161: the loop over the directory *)

Section Loader.
Context {rt : Runtime}.

(** What the loop holds: the tables of the rowing machine file by file, and
    the tables of the wrist device once a file of it was read. *)
Record loaded : Type := mkLoaded {
  laps_df_concept2_list : list DataFrame;
  points_df_concept2_list : list DataFrame;
  garmin_tables : option (DataFrame * DataFrame)
}.

(** [name.startswith(prefix)] *)
Definition startswith (name prefix : string) : bool := String.prefix prefix name.

(** The body of the loop for one directory entry: its name and the document
    the file parses to. *)
Definition load_file (st : loaded) (file : string * Element) : result loaded :=
  st ← (if startswith file.1 "concept2" then
          tables ← get_dataframes file.2;
          OK {| laps_df_concept2_list := laps_df_concept2_list st ++ [tables.1];
                points_df_concept2_list := points_df_concept2_list st ++ [tables.2];
                garmin_tables := garmin_tables st |}
        else OK st);
  if startswith file.1 "activity" then
    tables ← get_dataframes file.2;
    OK {| laps_df_concept2_list := laps_df_concept2_list st;
          points_df_concept2_list := points_df_concept2_list st;
          garmin_tables := Some tables |}
  else OK st.

Definition load_files (files : list (string * Element)) : result loaded :=
  for_each load_file files
    {| laps_df_concept2_list := []; points_df_concept2_list := []; garmin_tables := None |}.

(** The directory entries the loop reads. *)
Definition relevant (file : string * Element) : bool :=
  startswith file.1 "concept2" || startswith file.1 "activity".

End Loader.

(** ** A pinned runtime and sample documents

    A runtime for running the definitions: timestamps in the form
    [YYYY-MM-DDTHH:MM:SS[.ffffff][Z|+HH:MM|-HH:MM]] and a zone with a fixed
    offset from UTC. *)
Module Fixture.

Fixpoint fixed_digits (n : nat) (l : list ascii) (acc : Z) : option (Z * list ascii) :=
  match n, l with
  | O, _ => Some (acc, l)
  | S n', c :: l' => d ← Ascii.is_nat c; fixed_digits n' l' (10 * acc + Z.of_nat d)
  | S _, [] => None
  end.

Definition expect (c : ascii) (l : list ascii) : option (list ascii) :=
  match l with
  | c' :: l' => if Ascii.eqb c c' then Some l' else None
  | [] => None
  end.

(** Days from 1970-01-01 to a date of the proleptic Gregorian calendar. *)
Definition days_from_civil (y m d : Z) : Z :=
  let y := if m <=? 2 then y - 1 else y in
  let era := y / 400 in
  let yoe := y - era * 400 in
  let doy := (153 * (if 2 <? m then m - 3 else m + 9) + 2) / 5 + d - 1 in
  let doe := yoe * 365 + yoe / 4 - yoe / 100 + doy in
  era * 146097 + doe - 719468.

(** Fraction of a second, in microseconds. *)
Definition fraction (l : list ascii) : Z * list ascii :=
  match l with
  | "."%char :: l' =>
      let '(v, n, rest) := take_digits l' 0 0%nat in
      (if (n <=? 6)%nat then v * 10 ^ Z.of_nat (6 - n) else v / 10 ^ Z.of_nat (n - 6), rest)
  | _ => (0, l)
  end.

Definition zone (l : list ascii) : option (option Z) :=
  match l with
  | [] => Some None
  | c :: l' =>
      if Ascii.eqb c "Z" then match l' with [] => Some (Some 0) | _ => None end
      else
        sign ← (if Ascii.eqb c "+" then Some 1 else if Ascii.eqb c "-" then Some (-1) else None);
        '(hh, l') ← fixed_digits 2 l' 0;
        l' ← expect ":" l';
        '(mm, l') ← fixed_digits 2 l' 0;
        match l' with
        | [] => Some (Some (sign * (hh * 3600 + mm * 60) * 1000000))
        | _ => None
        end
  end.

Definition iso8601 (s : string) : option Timestamp :=
  let l := String.list_ascii_of_string s in
  '(y, l) ← fixed_digits 4 l 0;
  l ← expect "-" l;
  '(m, l) ← fixed_digits 2 l 0;
  l ← expect "-" l;
  '(d, l) ← fixed_digits 2 l 0;
  l ← expect "T" l;
  '(hh, l) ← fixed_digits 2 l 0;
  l ← expect ":" l;
  '(mm, l) ← fixed_digits 2 l 0;
  l ← expect ":" l;
  '(ss, l) ← fixed_digits 2 l 0;
  let '(us, l) := fraction l in
  off ← zone l;
  Some {| wall := (((days_from_civil y m d * 24 + hh) * 60 + mm) * 60 + ss) * 1000000 + us;
          utcoffset := off |}.

(** The machine's zone is one hour east of UTC all year. *)
Definition runtime : Runtime :=
  {| to_datetime s := from_option OK (Raise ValueError) (iso8601 s);
     dp_parse s := from_option (fun _ => OK ()) (Raise ValueError) (iso8601 s);
     local_utcoffset _ := 3600 * 1000000 |}.

Definition ns (name : string) : string := clark NAMESPACES "ns" name.
Definition ns3 (name : string) : string := clark NAMESPACES "ns3" name.

(** An element without attributes. *)
Definition node (t : string) (children : list Element) : Element := mkElement t ∅ None children.
Definition leaf (t : string) (text : string) : Element := mkElement t ∅ (Some text) [].
Definition empty (t : string) : Element := mkElement t ∅ None [].

Definition hr (bpm : string) : Element := node (ns "HeartRateBpm") [leaf (ns "Value") bpm].

(** [<Extensions><TPX><Watts>..</Watts></TPX></Extensions>] *)
Definition watts_extension (watts : Element) : Element :=
  node (ns "Extensions") [node (ns3 "TPX") [watts]].

Definition seconds (s : Z) : Z := s * 1000000.

(** 2022-01-03T00:00:00 on the local clock. *)
Definition midnight : Z := seconds (days_from_civil 2022 1 3 * 86400).

(** The lap of the scenario: a start time, a distance, no calories. *)
Definition lap_scenario : Element :=
  mkElement (ns "Lap") {[ "StartTime" := "2022-01-03T14:00:00Z" ]} None
    [ leaf (ns "DistanceMeters") "1000.0";
      node (ns "Track") [] ].


Definition point_full : Element :=
  node (ns "Trackpoint")
    [ leaf (ns "Time") "2022-01-03T14:00:01Z";
      leaf (ns "DistanceMeters") "4.2";
      hr "120";
      leaf (ns "Cadence") "22";
      watts_extension (leaf (ns3 "Watts") "180") ].

(** Watts present without text, and with a blank text. *)
Definition point_watts_empty : Element :=
  node (ns "Trackpoint")
    [ leaf (ns "Time") "2022-01-03T14:00:02Z";
      watts_extension (empty (ns3 "Watts")) ].

Definition point_watts_blank : Element :=
  node (ns "Trackpoint")
    [ leaf (ns "Time") "2022-01-03T14:00:02Z";
      watts_extension (leaf (ns3 "Watts") " ") ].

(** Cadence below an extension element instead of below the track point. *)
Definition point_nested_cadence : Element :=
  node (ns "Trackpoint")
    [ leaf (ns "Time") "2022-01-03T14:00:03Z";
      node (ns "Extensions") [leaf (ns "Cadence") "22"] ].

Definition point_no_time : Element :=
  node (ns "Trackpoint") [ leaf (ns "DistanceMeters") "4.2" ].

Definition lap_with (start : string) (track : list Element) : Element :=
  mkElement (ns "Lap") {[ "StartTime" := start ]} None track.

Definition document (activities : list Element) : Element :=
  node (ns "TrainingCenterDatabase") activities.

(** Two laps, the first with two track points and the second with one. *)
Definition doc_two_laps : Element :=
  document
    [ node (ns "Activities")
        [ node (ns "Activity")
            [ lap_with "2022-01-03T14:00:00Z" [node (ns "Track") [point_full; point_watts_empty]];
              lap_with "2022-01-03T14:05:00Z" [node (ns "Track") [point_nested_cadence]] ] ] ].

(** A lap without a track, and a lap with an empty one. *)
Definition doc_lap_without_track : Element :=
  document
    [ node (ns "Activities")
        [ node (ns "Activity") [ lap_with "2022-01-03T14:00:00Z" [] ] ] ].

Definition doc_lap_empty_track : Element :=
  document
    [ node (ns "Activities")
        [ node (ns "Activity") [ lap_with "2022-01-03T14:00:00Z" [node (ns "Track") []] ] ] ].

(** No container; an empty container; a container whose only child is a
    multi-sport session (which the schema allows next to activities), and
    one where such a session precedes an activity. *)
Definition doc_no_container : Element := document [].
Definition doc_empty_container : Element := document [node (ns "Activities") []].

Definition doc_session_only : Element :=
  document [ node (ns "Activities") [ node (ns "MultiSportSession") [] ] ].

Definition doc_session_first : Element :=
  document
    [ node (ns "Activities")
        [ node (ns "MultiSportSession") [];
          node (ns "Activity")
            [ lap_with "2022-01-03T14:00:00Z" [node (ns "Track") [point_full]] ] ] ].

(** Tables for the aligner. *)
Definition sample (t : Z) (bpm : Z) : gmap string value :=
  {[ "time" := VTime (seconds t); "heart_rate" := VInt bpm ]}.

Definition stroke (t : Z) (watt : Z) : gmap string value :=
  {[ "time" := VTime (seconds t); "watt" := VFloat (Qmake watt 1) ]}.

Definition lap_row (number : Z) (start : Z) : gmap string value :=
  {[ "number" := VInt number; "start_time" := VTime (seconds start) ]}.

Definition laps_table (starts : list Z) : DataFrame :=
  from_option id (pd_DataFrame [] [])
    (match set_index "number"
             (pd_DataFrame (zip_with lap_row (Z.of_nat <$> seq 1 (length starts)) starts)
                LAPS_COLUMN_NAMES) with
     | OK df => Some df
     | Raise _ => None
     end).

Definition points_table (data : list (gmap string value)) : DataFrame :=
  pd_DataFrame data TRACKPOINT_COLUMN_NAMES.

(** A lap whose start time has no offset, one without a start time, and one
    whose maximum heart rate has no value. *)
Definition lap_naive : Element := lap_with "2022-01-03T14:00:00" [node (ns "Track") []].

Definition lap_no_start : Element := node (ns "Lap") [node (ns "Track") []].

Definition lap_hr_no_value : Element :=
  lap_with "2022-01-03T14:00:00Z" [node (ns "MaximumHeartRateBpm") []; node (ns "Track") []].

(** A file whose second track point has no time. *)
Definition activity_bad_point : Element :=
  node (ns "Activity")
    [ lap_with "2022-01-03T14:00:00Z" [node (ns "Track") [point_full; point_no_time]] ].

Definition doc_bad_point : Element :=
  document [ node (ns "Activities") [ activity_bad_point ] ].

Definition activity_two_laps : Element :=
  node (ns "Activity")
    [ lap_with "2022-01-03T14:00:00Z" [node (ns "Track") [point_full; point_watts_empty]];
      lap_with "2022-01-03T14:05:00Z" [node (ns "Track") [point_nested_cadence]] ].

(** A directory: two files of the rowing machine, a file of another kind
    that is no activity document at all, and two files of the wrist device. *)
Definition directory : list (string * Element) :=
  [ ("concept2-a.tcx", doc_two_laps);
    ("notes.txt", doc_no_container);
    ("activity_1.tcx", doc_lap_empty_track);
    ("concept2-b.tcx", doc_lap_empty_track);
    ("activity_2.tcx", doc_two_laps) ].

Definition directory_broken : list (string * Element) :=
  [ ("concept2-a.tcx", doc_two_laps); ("activity_1.tcx", doc_bad_point) ].

(** An alignment whose wrist samples are at 0 s and 10 s (twice), and the
    same with the wrist samples out of order. *)
Definition aligned_sample : alignment :=
  {| offset := 0;
     laps_garmin := laps_table [0];
     points_garmin := points_table [sample 0 100; sample 10 110; sample 10 111];
     laps_concept2 := laps_table [0];
     points_concept2 := points_table [stroke 3 150; stroke 10 155] |}.

(** A merged table that spans more than a day. *)
Definition merged_long : DataFrame :=
  points_table [stroke 100 150; stroke 3825 155; stroke 86505 160].

End Fixture.

(** * Properties *)

(** ** Fallible computations *)

Lemma bind_OK {A B} (m : result A) (f : A -> result B) b :
  m ≫= f = OK b <-> exists a, m = OK a /\ f a = OK b.
Proof.
  destruct m as [a|e]; simpl; split.
  - intros Hf. by exists a.
  - by intros (a' & [= <-] & Hf).
  - discriminate.
  - by intros (a' & [=] & _).
Qed.

Lemma bind_is_OK {A B} (m : result A) (f : A -> result B) a :
  m = OK a -> is_OK (f a) -> is_OK (m ≫= f).
Proof. by intros ->. Qed.

Lemma bind_raises {A B} (m : result A) (f : A -> result B) :
  raises m -> raises (m ≫= f).
Proof. intros [e ->]. by exists e. Qed.

Lemma not_OK_raises {A} (m : result A) : raises m <-> ~ is_OK m.
Proof.
  destruct m as [a|e]; split.
  - by intros [e [=]].
  - intros Hn. destruct Hn. by exists a.
  - by intros _ [a [=]].
  - intros _. by exists e.
Qed.

(** A loop whose body raises at one of the elements raises, wherever the
    loop stands when it gets there. *)
Lemma for_each_raises {S X} (body : S -> X -> result S) xs x :
  x ∈ xs -> (forall s, raises (body s x)) -> forall s, raises (for_each body xs s).
Proof.
  intros Hin Hbody. induction xs as [|y xs IH]; intros s.
  - by apply elem_of_nil in Hin.
  - simpl. apply elem_of_cons in Hin as [<- | Hin].
    + apply bind_raises, Hbody.
    + destruct (body s y) as [s'|e]; simpl; [by apply IH | by exists e].
Qed.

Lemma for_each_app {S X} (body : S -> X -> result S) xs ys s :
  for_each body (xs ++ ys) s = for_each body xs s ≫= for_each body ys.
Proof.
  revert s. induction xs as [|x xs IH]; intros s; simpl; [done|].
  destruct (body s x); simpl; [apply IH | done].
Qed.

(** ** Searching the tree *)

Lemma has_tag_true t e : has_tag t e = true <-> tag e = t.
Proof. apply String.eqb_eq. Qed.

Lemma elem_of_findall e p ns x :
  x ∈ findall e p ns <-> x ∈ candidates e p /\ tag x = path_tag ns p.
Proof.
  unfold findall. rewrite list_elem_of_In, List.filter_In, <- list_elem_of_In.
  by rewrite has_tag_true.
Qed.

Lemma find_Some e p ns x :
  find e p ns = Some x -> x ∈ candidates e p /\ tag x = path_tag ns p.
Proof.
  unfold find. intros Hhd. apply elem_of_findall.
  destruct (findall e p ns); simplify_eq/=. apply list_elem_of_here.
Qed.

Lemma find_is_Some e p ns :
  is_Some (find e p ns) <-> exists x, x ∈ candidates e p /\ tag x = path_tag ns p.
Proof.
  split.
  - intros [x Hx]. exists x. by eapply find_Some.
  - intros (x & Hx). apply elem_of_findall in Hx. unfold find.
    destruct (findall e p ns); [by apply elem_of_nil in Hx | by eexists].
Qed.

Lemma find_None e p ns :
  find e p ns = None <-> Forall (fun x => tag x <> path_tag ns p) (candidates e p).
Proof.
  rewrite eq_None_not_Some, find_is_Some, Forall_forall. split.
  - intros Hno x Hx Htag. apply Hno. by exists x.
  - intros Hall (x & Hx & Htag). by apply (Hall x).
Qed.

(** Induction over a tree with the hypothesis for every child. *)
Lemma Element_children_ind (P : Element -> Prop) :
  (forall e, Forall P (children e) -> P e) -> forall e, P e.
Proof.
  intros Hstep. fix IH 1. intros [t a x cs]. apply Hstep. simpl.
  induction cs as [|c cs IHcs]; constructor; [apply IH | apply IHcs].
Qed.

Lemma descendants_unfold e :
  descendants e = children e ≫= (fun c => c :: descendants c).
Proof.
  destruct e as [t a x cs]. simpl.
  induction cs as [|c cs IH]; [done|]. by rewrite IH.
Qed.

Lemma elem_of_descendants x e : x ∈ descendants e <-> descendant x e.
Proof.
  split.
  - revert x. induction e as [e IH] using Element_children_ind. intros x.
    rewrite descendants_unfold, list_elem_of_bind. intros (c & Hx & Hc).
    apply elem_of_cons in Hx as [-> | Hx]; [by apply descendant_child|].
    apply descendant_deeper with c; [done|].
    rewrite Forall_forall in IH. by apply IH.
  - induction 1 as [e Hc | c e Hc _ IH];
      rewrite descendants_unfold, list_elem_of_bind.
    + exists x. split; [apply list_elem_of_here | done].
    + exists c. split; [by apply list_elem_of_further | done].
Qed.

(** A node has a child of a given name exactly when the search among its
    children finds one. *)
Lemma find_child_None e prefix name :
  find e (child_path prefix name) NAMESPACES = None <->
  Forall (fun c => tag c <> clark NAMESPACES prefix name) (children e).
Proof. apply (find_None e (child_path prefix name)). Qed.

(** ** Field extractor *)

Section ExtractorProperties.
Context {rt : Runtime}.

Ltac step := unfold mbind, result_bind; simpl.

Lemma set_if_present_keys data key elem conv data' :
  set_if_present data key elem conv = OK data' ->
  forall k, is_Some (data' !! k) <-> (k = key /\ is_Some elem) \/ is_Some (data !! k).
Proof.
  destruct elem as [e|]; simpl.
  - intros (v & _ & [= <-])%bind_OK k. rewrite lookup_insert_is_Some.
    assert (is_Some (Some e)) by (by eexists).
    destruct (decide (key = k)); intuition congruence.
  - intros [= <-] k. split; [by right | intros [[_ []%is_Some_None]|]; done].
Qed.

Lemma set_if_present_other data key elem conv data' k :
  set_if_present data key elem conv = OK data' -> k <> key -> data' !! k = data !! k.
Proof.
  destruct elem as [e|]; simpl.
  - intros (v & _ & [= <-])%bind_OK Hne. by rewrite lookup_insert_ne.
  - by intros [= <-].
Qed.

Lemma set_if_present_value data key e conv data' :
  set_if_present data key (Some e) conv = OK data' ->
  exists v, conv e = OK v /\ data' !! key = Some v.
Proof.
  simpl. intros (v & Hv & [= <-])%bind_OK. exists v. by rewrite lookup_insert_eq.
Qed.

Lemma set_if_present_is_OK data key elem conv :
  (forall e, elem = Some e -> is_OK (conv e)) ->
  is_OK (set_if_present data key elem conv).
Proof.
  intros Hconv. destruct elem as [e|]; simpl; [|by eexists].
  destruct (Hconv e eq_refl) as [v ->]. by eexists.
Qed.

Lemma set_if_present_raises data key e conv :
  raises (conv e) -> raises (set_if_present data key (Some e) conv).
Proof. intros [err Herr]. simpl. rewrite Herr. by exists err. Qed.

(** *** The time of a track point is required *)

(** C6: a track point without a Time child makes the extraction raise (the
    attribute access on the missing element fails, Python's AttributeError);
    nothing stands in for the time, and the loop over the track points
    stops with that exception instead of appending a record. *)
Theorem trackpoint_without_time_fails (tp : Element) :
  Forall (fun c => tag c <> clark NAMESPACES "ns" "Time") (children tp) ->
  get_tcx_trackpoint_data tp = Raise AttributeError /\
  forall lap_no points_data, walk_point lap_no points_data tp = Raise AttributeError.
Proof.
  intros Hno%find_child_None.
  assert (get_tcx_trackpoint_data tp = Raise AttributeError) as Hget.
  { unfold get_tcx_trackpoint_data. by rewrite Hno. }
  split; [done|]. intros lap_no points_data. unfold walk_point. by rewrite Hget.
Qed.

(** *** A lap needs a track *)

Lemma walk_lap_without_track st lap :
  find lap (child_path "ns" "Track") NAMESPACES = None ->
  raises (walk_lap st lap) /\
  (is_OK (get_tcx_lap_data lap) -> walk_lap st lap = Raise AttributeError).
Proof.
  intros Hno. destruct st as [[points_data laps_data] lap_no]. unfold walk_lap.
  rewrite Hno. destruct (get_tcx_lap_data lap) as [d|e]; simpl.
  - split; [by eexists | done].
  - split; [by eexists | by intros [d [=]]].
Qed.

Lemma get_dataframes_raises root :
  raises (walk root) -> raises (get_dataframes root).
Proof. intros Hw. unfold get_dataframes. by apply bind_raises. Qed.

(** C10: a lap without a Track child makes the whole file fail: the step of
    the walk raises at that lap (with the AttributeError of iterating the
    missing track when the lap itself is readable), and so does
    [get_dataframes] for every document whose processed activity has that
    lap; a lap whose Track is there but holds no track points is kept and
    adds no row of points. *)
Theorem lap_without_track_fails_file (lap : Element) :
  (Forall (fun c => tag c <> clark NAMESPACES "ns" "Track") (children lap) ->
     (forall st, raises (walk_lap st lap)) /\
     (forall st, is_OK (get_tcx_lap_data lap) -> walk_lap st lap = Raise AttributeError) /\
     (forall root activity,
        first_activity root = OK activity ->
        lap ∈ children activity -> tag lap = clark NAMESPACES "ns" "Lap" ->
        raises (get_dataframes root))) /\
  (forall track points_data laps_data lap_no d,
     find lap (child_path "ns" "Track") NAMESPACES = Some track ->
     Forall (fun c => tag c <> clark NAMESPACES "ns" "Trackpoint") (children track) ->
     get_tcx_lap_data lap = OK d ->
     walk_lap (points_data, laps_data, lap_no) lap =
       OK (points_data, laps_data ++ [<["number" := VInt lap_no]> d], lap_no + 1)).
Proof.
  split.
  - intros Hno%find_child_None. split; [|split].
    + intros st. by apply walk_lap_without_track.
    + intros st. by apply walk_lap_without_track.
    + intros root activity Hact Hin Htag. apply get_dataframes_raises.
      unfold walk. rewrite Hact. simpl.
      apply for_each_raises with lap.
      * by apply (elem_of_findall activity (child_path "ns" "Lap")).
      * intros st. by apply walk_lap_without_track.
  - intros track points_data laps_data lap_no d Htrack Hempty Hd.
    unfold walk_lap. rewrite Hd, Htrack. simpl.
    assert (findall track (child_path "ns" "Trackpoint") NAMESPACES = []) as ->; [|done].
    apply find_child_None in Hempty. unfold find in Hempty.
    by destruct (findall track _ NAMESPACES).
Qed.

(** *** The activity that is processed *)

Lemma first_activity_first root activities first rest :
  find root (child_path "ns" "Activities") NAMESPACES = Some activities ->
  children activities = first :: rest ->
  first_activity root = OK first.
Proof. intros Hfind Hch. unfold first_activity. by rewrite Hfind, Hch. Qed.

(** C7, as the code has it: without the container the call raises
    (TypeError), with a container that has no child node it raises
    (IndexError), and otherwise the first child of the container is
    processed, whatever it is, and nothing else of the container: the laps
    walked are those of that child, and two documents whose containers start
    with the same child give the same tables. *)
Theorem first_child_of_container_is_processed (root : Element) :
  (find root (child_path "ns" "Activities") NAMESPACES = None ->
     get_dataframes root = Raise TypeError) /\
  (forall activities,
     find root (child_path "ns" "Activities") NAMESPACES = Some activities ->
     children activities = [] ->
     get_dataframes root = Raise IndexError) /\
  (forall activities first rest,
     find root (child_path "ns" "Activities") NAMESPACES = Some activities ->
     children activities = first :: rest ->
     walk root = for_each walk_lap (findall first (child_path "ns" "Lap") NAMESPACES) ([], [], 1) /\
     forall root' activities' rest',
       find root' (child_path "ns" "Activities") NAMESPACES = Some activities' ->
       children activities' = first :: rest' ->
       get_dataframes root' = get_dataframes root).
Proof.
  split; [|split].
  - intros Hno. unfold get_dataframes, walk, first_activity. by rewrite Hno.
  - intros activities Hfind Hch. unfold get_dataframes, walk, first_activity.
    by rewrite Hfind, Hch.
  - intros activities first rest Hfind Hch.
    assert (forall r a t, find r (child_path "ns" "Activities") NAMESPACES = Some a ->
                          children a = first :: t ->
                          walk r = for_each walk_lap
                                     (findall first (child_path "ns" "Lap") NAMESPACES) ([], [], 1))
      as Hwalk.
    { intros r a t Hr Ha. unfold walk. by rewrite (first_activity_first r a first t). }
    split; [by eapply Hwalk|].
    intros root' activities' rest' Hfind' Hch'. unfold get_dataframes.
    by rewrite (Hwalk root' activities' rest'), (Hwalk root activities rest).
Qed.

(** *** The keys of a lap record *)

Ltac ok_step Hconv :=
  cbv beta zeta;
  lazymatch goal with
  | |- is_OK (mbind _ (set_if_present ?d ?k ?e ?c)) =>
      let d' := fresh "data" in
      let Hd' := fresh "Hdata" in
      destruct (set_if_present_is_OK d k e c Hconv) as [d' Hd'];
      eapply bind_is_OK; [exact Hd'|]
  end.

Lemma get_tcx_lap_data_is_OK lap :
  lap_well_formed lap -> is_OK (get_tcx_lap_data lap).
Proof.
  intros ((s & Hs & [t Ht] & [u Hu]) & Hdist & Hcal & Htot & Hspeed & Hmax & Havg).
  unfold get_tcx_lap_data.
  eapply bind_is_OK; [by rewrite Hs|].
  eapply bind_is_OK; [exact Ht|].
  cbv zeta. eapply bind_is_OK; [exact Hu|].
  ok_step Hdist. ok_step Hcal. ok_step Htot. ok_step Hspeed. ok_step Hmax. ok_step Havg.
  by eexists.
Qed.

Lemma get_tcx_lap_data_keys lap d :
  get_tcx_lap_data lap = OK d ->
  forall k, is_Some (d !! k) <->
    k = "start_time" \/
    exists name, (k, name) ∈ lap_optional_fields /\
                 is_Some (find lap (child_path "ns" name) NAMESPACES).
Proof.
  unfold get_tcx_lap_data.
  intros (s & _ & (t & _ & (u & _ & (d1 & H1 & (d2 & H2 & (d3 & H3 & (d4 & H4 &
    (d5 & H5 & (d6 & H6 & [= <-])%bind_OK)%bind_OK)%bind_OK)%bind_OK)%bind_OK)
    %bind_OK)%bind_OK)%bind_OK)%bind_OK k.
  rewrite (set_if_present_keys _ _ _ _ _ H6), (set_if_present_keys _ _ _ _ _ H5),
    (set_if_present_keys _ _ _ _ _ H4), (set_if_present_keys _ _ _ _ _ H3),
    (set_if_present_keys _ _ _ _ _ H2), (set_if_present_keys _ _ _ _ _ H1),
    lookup_insert_is_Some, lookup_empty.
  unfold lap_optional_fields. split.
  - intros [[-> ?]|[[-> ?]|[[-> ?]|[[-> ?]|[[-> ?]|[[-> ?]|[<-|[_ []%is_Some_None]]]]]]]];
      [right; eexists; split; [|eassumption]; rewrite !elem_of_cons; tauto ..| by left].
  - intros [->|(name & Hin & Hpresent)]; [tauto|].
    repeat (apply elem_of_cons in Hin as [[= -> ->]|Hin]; [tauto|]).
    by apply elem_of_nil in Hin.
Qed.

(** C5: a lap with a StartTime attribute whose present fields are readable
    yields a record, and the keys of a record that is returned are
    start_time and the keys of exactly those optional fields whose element
    is a child of the lap; the key of an absent field is not bound at all. *)
Theorem lap_extraction_keys (lap : Element) :
  (lap_well_formed lap -> is_OK (get_tcx_lap_data lap)) /\
  (forall d, get_tcx_lap_data lap = OK d ->
     (exists t, d !! "start_time" = Some (VTime t)) /\
     (forall k, is_Some (d !! k) <->
        k = "start_time" \/
        exists name, (k, name) ∈ lap_optional_fields /\
                     is_Some (find lap (child_path "ns" name) NAMESPACES)) /\
     (forall k name, (k, name) ∈ lap_optional_fields ->
        Forall (fun c => tag c <> clark NAMESPACES "ns" name) (children lap) ->
        d !! k = None)).
Proof.
  split; [apply get_tcx_lap_data_is_OK|]. intros d Hd.
  pose proof (get_tcx_lap_data_keys lap d Hd) as Hkeys. split; [|split; [done|]].
  - revert Hd. unfold get_tcx_lap_data.
    intros (s & _ & (t & _ & (u & _ & (d1 & H1 & (d2 & H2 & (d3 & H3 & (d4 & H4 &
      (d5 & H5 & (d6 & H6 & [= <-])%bind_OK)%bind_OK)%bind_OK)%bind_OK)%bind_OK)
      %bind_OK)%bind_OK)%bind_OK)%bind_OK.
    exists t.
    rewrite (set_if_present_other _ _ _ _ _ _ H6), (set_if_present_other _ _ _ _ _ _ H5),
      (set_if_present_other _ _ _ _ _ _ H4), (set_if_present_other _ _ _ _ _ _ H3),
      (set_if_present_other _ _ _ _ _ _ H2), (set_if_present_other _ _ _ _ _ _ H1) by done.
    by rewrite lookup_insert_eq.
  - intros k name Hin Habsent%find_child_None. apply eq_None_not_Some.
    rewrite Hkeys. intros [->|(name' & Hin' & [x Hx])].
    + unfold lap_optional_fields in Hin.
      repeat (apply elem_of_cons in Hin as [[=]|Hin]). by apply elem_of_nil in Hin.
    + assert (name' = name) as ->; [|by rewrite Habsent in Hx].
      revert Hin Hin'. unfold lap_optional_fields.
      rewrite !elem_of_cons, !elem_of_nil. intuition congruence.
Qed.

(** *** The fields of a track point *)

Lemma get_tcx_trackpoint_data_inv tp d :
  get_tcx_trackpoint_data tp = OK d ->
  exists te t d1 d2 d3,
    find tp (child_path "ns" "Time") NAMESPACES = Some te /\
    convert_local (text te) = OK t /\
    set_if_present (<["time" := VTime t]> ∅) "cadence"
      (find tp (child_path "ns" "Cadence") NAMESPACES) float_text = OK d1 /\
    set_if_present d1 "distance"
      (find tp (child_path "ns" "DistanceMeters") NAMESPACES) float_text = OK d2 /\
    set_if_present d2 "heart_rate"
      (find tp (child_path "ns" "HeartRateBpm") NAMESPACES) int_value = OK d3 /\
    set_if_present d3 "watt"
      (find tp (descendant_path "ns3" "Watts") NAMESPACES) float_text_or_0 = OK d.
Proof.
  unfold get_tcx_trackpoint_data.
  intros (te & Hte & (t & Ht & (d1 & H1 & (d2 & H2 & (d3 & H3 & (d4 & H4 & [= <-])
    %bind_OK)%bind_OK)%bind_OK)%bind_OK)%bind_OK)%bind_OK.
  exists te, t, d1, d2, d3. split; [|done].
  by destruct (find tp (child_path "ns" "Time") NAMESPACES); simplify_eq/=.
Qed.

(** With readable fields up to the power, what is left is the power step. *)
Lemma get_tcx_trackpoint_data_watt_step tp :
  trackpoint_fields_ok tp ->
  exists d3,
    get_tcx_trackpoint_data tp =
      (data ← set_if_present d3 "watt"
                (find tp (descendant_path "ns3" "Watts") NAMESPACES) float_text_or_0;
       OK data).
Proof.
  intros ((te & Hte & [t Ht]) & Hcad & Hdist & Hhr).
  destruct (set_if_present_is_OK (<["time" := VTime t]> ∅) "cadence" _ _ Hcad) as [d1 H1].
  destruct (set_if_present_is_OK d1 "distance" _ _ Hdist) as [d2 H2].
  destruct (set_if_present_is_OK d2 "heart_rate" _ _ Hhr) as [d3 H3].
  exists d3. unfold get_tcx_trackpoint_data, mbind, result_bind.
  rewrite Hte. cbv beta iota delta [deref]. rewrite Ht. cbv beta iota zeta.
  by rewrite H1, H2, H3.
Qed.

Lemma get_tcx_trackpoint_data_keys tp d :
  get_tcx_trackpoint_data tp = OK d ->
  forall k, is_Some (d !! k) <->
    (k = "watt" /\ is_Some (find tp (descendant_path "ns3" "Watts") NAMESPACES)) \/
    (k = "heart_rate" /\ is_Some (find tp (child_path "ns" "HeartRateBpm") NAMESPACES)) \/
    (k = "distance" /\ is_Some (find tp (child_path "ns" "DistanceMeters") NAMESPACES)) \/
    (k = "cadence" /\ is_Some (find tp (child_path "ns" "Cadence") NAMESPACES)) \/
    k = "time".
Proof.
  intros (te & t & d1 & d2 & d3 & _ & _ & H1 & H2 & H3 & H4)%get_tcx_trackpoint_data_inv k.
  rewrite (set_if_present_keys _ _ _ _ _ H4), (set_if_present_keys _ _ _ _ _ H3),
    (set_if_present_keys _ _ _ _ _ H2), (set_if_present_keys _ _ _ _ _ H1),
    lookup_insert_is_Some, lookup_empty.
  split; [|intuition].
  intros [?|[?|[?|[?|[<-|[_ []%is_Some_None]]]]]]; tauto.
Qed.

(** C9: the power is searched in the whole subtree of the track point, the
    other fields among its children only: a returned record has a watt
    exactly when a Watts element lies somewhere below the node, and has
    cadence, distance and heart rate exactly when the node has a child of
    that name; its time comes from a child.  A track point whose fields are
    readable does return a record. *)
Theorem watts_searched_in_subtree (tp : Element) :
  (trackpoint_fields_ok tp ->
   (forall w, find tp (descendant_path "ns3" "Watts") NAMESPACES = Some w ->
              is_OK (float_text_or_0 w)) ->
   is_OK (get_tcx_trackpoint_data tp)) /\
  (forall d, get_tcx_trackpoint_data tp = OK d ->
     (is_Some (d !! "watt") <->
        exists w, descendant w tp /\ tag w = clark NAMESPACES "ns3" "Watts") /\
     (is_Some (d !! "cadence") <->
        exists c, c ∈ children tp /\ tag c = clark NAMESPACES "ns" "Cadence") /\
     (is_Some (d !! "distance") <->
        exists c, c ∈ children tp /\ tag c = clark NAMESPACES "ns" "DistanceMeters") /\
     (is_Some (d !! "heart_rate") <->
        exists c, c ∈ children tp /\ tag c = clark NAMESPACES "ns" "HeartRateBpm") /\
     (exists c, c ∈ children tp /\ tag c = clark NAMESPACES "ns" "Time")).
Proof.
  split.
  - intros [d3 ->]%get_tcx_trackpoint_data_watt_step Hwatt.
    destruct (set_if_present_is_OK d3 "watt" _ _ Hwatt) as [d ->]. by eexists.
  - intros d Hd. pose proof (get_tcx_trackpoint_data_keys tp d Hd) as Hkeys.
    rewrite !Hkeys, !find_is_Some. simpl.
    setoid_rewrite elem_of_descendants.
    split; [|split; [|split; [|split]]].
    1-4: split; [intros [[? ?]|[[? ?]|[[? ?]|[[? ?]|?]]]];
                   first [assumption | discriminate] | tauto].
    apply get_tcx_trackpoint_data_inv in Hd as (te & t & _ & _ & _ & Hte & _).
    apply (find_Some tp (child_path "ns" "Time")) in Hte. exists te. exact Hte.
Qed.

(** *** The default of the power *)

Lemma lstrip_blank l : Forall (fun c => py_isspace c = true) l -> lstrip l = [].
Proof. induction 1 as [|c l Hc _ IH]; simpl; [done|]. by rewrite Hc. Qed.

Lemma parse_float_blank s : blank s -> parse_float s = None.
Proof. intros Hb. unfold parse_float, strip. by rewrite (lstrip_blank _ Hb). Qed.

Lemma float_text_or_0_empty w :
  text w = None \/ text w = Some "" -> float_text_or_0 w = OK (VFloat 0).
Proof. unfold float_text_or_0. by intros [-> | ->]. Qed.

Lemma float_text_or_0_blank w s :
  text w = Some s -> s <> "" -> blank s -> float_text_or_0 w = Raise ValueError.
Proof.
  intros Hw Hne Hb. unfold float_text_or_0, py_or. rewrite Hw. simpl.
  apply String.eqb_neq in Hne. rewrite Hne. simpl. by rewrite parse_float_blank.
Qed.

Lemma get_tcx_trackpoint_data_field_raises tp key name conv x :
  (key, name, conv) ∈ [("cadence", "Cadence", float_text);
                        ("distance", "DistanceMeters", float_text);
                        ("heart_rate", "HeartRateBpm", int_value)] ->
  find tp (child_path "ns" name) NAMESPACES = Some x ->
  raises (conv x) ->
  raises (get_tcx_trackpoint_data tp).
Proof.
  intros Hin Hx Hconv. apply not_OK_raises. intros [d Hd].
  apply get_tcx_trackpoint_data_inv in Hd as (te & t & d1 & d2 & d3 & _ & _ & H1 & H2 & H3 & _).
  apply not_OK_raises in Hconv. apply Hconv.
  rewrite !elem_of_cons, elem_of_nil in Hin.
  destruct Hin as [[= -> -> ->]|[[= -> -> ->]|[[= -> -> ->]|[]]]].
  - rewrite Hx in H1. apply set_if_present_value in H1 as (v & Hv & _). by exists v.
  - rewrite Hx in H2. apply set_if_present_value in H2 as (v & Hv & _). by exists v.
  - rewrite Hx in H3. apply set_if_present_value in H3 as (v & Hv & _). by exists v.
Qed.

(** C4, as the code has it: a Watts element without text (None, or the empty
    string) gives watt = 0.0, bound in the record; a text of white space
    only is passed to [float] and makes the extraction raise (ValueError);
    no other optional field of a track point has a default: an element of
    theirs without text makes the extraction raise. *)
Theorem empty_watts_defaults_to_zero (tp w : Element) :
  find tp (descendant_path "ns3" "Watts") NAMESPACES = Some w ->
  (text w = None \/ text w = Some "" ->
     (trackpoint_fields_ok tp -> is_OK (get_tcx_trackpoint_data tp)) /\
     (forall d, get_tcx_trackpoint_data tp = OK d -> d !! "watt" = Some (VFloat 0))) /\
  (forall s, text w = Some s -> s <> "" -> blank s ->
     raises (get_tcx_trackpoint_data tp) /\
     (trackpoint_fields_ok tp -> get_tcx_trackpoint_data tp = Raise ValueError)) /\
  (forall name x, name ∈ ["Cadence"; "DistanceMeters"] ->
     find tp (child_path "ns" name) NAMESPACES = Some x -> text x = None ->
     raises (get_tcx_trackpoint_data tp)) /\
  (forall x v, find tp (child_path "ns" "HeartRateBpm") NAMESPACES = Some x ->
     find x (child_path "ns" "Value") NAMESPACES = Some v -> text v = None ->
     raises (get_tcx_trackpoint_data tp)).
Proof.
  intros Hw. split; [|split; [|split]].
  - intros Hempty%float_text_or_0_empty. split.
    + intros [d3 ->]%get_tcx_trackpoint_data_watt_step. rewrite Hw. simpl.
      rewrite Hempty. by eexists.
    + intros d (te & t & d1 & d2 & d3 & _ & _ & _ & _ & _ & H4)%get_tcx_trackpoint_data_inv.
      rewrite Hw in H4. apply set_if_present_value in H4 as (v & Hv & ->).
      by rewrite Hempty in Hv; simplify_eq.
  - intros s Hs Hne Hb. pose proof (float_text_or_0_blank w s Hs Hne Hb) as Hraise. split.
    + apply not_OK_raises.
      intros [d (te & t & d1 & d2 & d3 & _ & _ & _ & _ & _ & H4)%get_tcx_trackpoint_data_inv].
      rewrite Hw in H4. apply set_if_present_value in H4 as (v & Hv & _).
      by rewrite Hraise in Hv.
    + intros [d3 ->]%get_tcx_trackpoint_data_watt_step. rewrite Hw. simpl.
      by rewrite Hraise.
  - intros name x Hin Hx Htext.
    rewrite !elem_of_cons, elem_of_nil in Hin. destruct Hin as [->|[->|[]]].
    + apply (get_tcx_trackpoint_data_field_raises tp "cadence" "Cadence" float_text x);
        [rewrite !elem_of_cons; tauto | done |].
      unfold float_text. rewrite Htext. by eexists.
    + apply (get_tcx_trackpoint_data_field_raises tp "distance" "DistanceMeters" float_text x);
        [rewrite !elem_of_cons; tauto | done |].
      unfold float_text. rewrite Htext. by eexists.
  - intros x v Hx Hv Htext.
    apply (get_tcx_trackpoint_data_field_raises tp "heart_rate" "HeartRateBpm" int_value x);
      [rewrite !elem_of_cons; tauto | done |].
    unfold int_value, value_child, int_text. rewrite Hv. simpl. rewrite Htext. by eexists.
Qed.

End ExtractorProperties.

(** ** Document walker *)

Section WalkerProperties.
Context {rt : Runtime}.

(** A record that is returned has a time, so the walk never skips it. *)
Lemma get_tcx_trackpoint_data_truthy tp d :
  get_tcx_trackpoint_data tp = OK d -> dict_truthy d = true.
Proof.
  intros Hd. unfold dict_truthy. apply negb_true_iff, Nat.eqb_neq.
  apply (map_size_ne_0_lookup_2 d "time").
  apply (get_tcx_trackpoint_data_keys tp d Hd). tauto.
Qed.

Lemma walk_point_OK lap_no points_data tp points_data' :
  walk_point lap_no points_data tp = OK points_data' ->
  exists p, stamped lap_no tp p /\ points_data' = points_data ++ [p].
Proof.
  unfold walk_point. intros (d & Hd & Hif)%bind_OK.
  rewrite (get_tcx_trackpoint_data_truthy tp d Hd) in Hif. simplify_eq.
  eexists. split; [by exists d | done].
Qed.

Lemma walk_points_OK lap_no tps points_data points_data' :
  for_each (walk_point lap_no) tps points_data = OK points_data' ->
  exists new, Forall2 (stamped lap_no) tps new /\ points_data' = points_data ++ new.
Proof.
  revert points_data. induction tps as [|tp tps IH]; intros points_data; simpl.
  - intros [= <-]. exists []. split; [constructor | by rewrite app_nil_r].
  - intros (pts1 & (p & Hp & ->)%walk_point_OK & (new & Hnew & ->)%IH)%bind_OK.
    exists (p :: new). split; [by constructor | by rewrite <- app_assoc].
Qed.

Lemma walk_lap_OK points_data laps_data lap_no lap st' :
  walk_lap (points_data, laps_data, lap_no) lap = OK st' ->
  exists d track new,
    get_tcx_lap_data lap = OK d /\
    find lap (child_path "ns" "Track") NAMESPACES = Some track /\
    Forall2 (stamped lap_no) (findall track (child_path "ns" "Trackpoint") NAMESPACES) new /\
    st' = (points_data ++ new, laps_data ++ [<["number" := VInt lap_no]> d], lap_no + 1).
Proof.
  unfold walk_lap. intros (d & Hd & (track & Htrack & (pts' & Hpts & [= <-])%bind_OK)%bind_OK)%bind_OK.
  apply walk_points_OK in Hpts as (new & Hnew & ->).
  exists d, track, new. repeat split; try done.
  by destruct (find lap (child_path "ns" "Track") NAMESPACES); simplify_eq/=.
Qed.

Lemma stamped_lap lap_no tps new :
  Forall2 (stamped lap_no) tps new ->
  Forall (fun p => p !! "lap" = Some (VInt lap_no)) new.
Proof.
  induction 1 as [|tp p tps new (d & _ & ->) _ IH]; constructor; [|done].
  by rewrite lookup_insert_eq.
Qed.

(** The loop over the laps numbers the laps it appends from the counter on,
    one by one, and stamps every point it appends with a number it gave. *)
Lemma walk_laps_OK ls points_data laps_data lap_no points_data' laps_data' lap_no' :
  for_each walk_lap ls (points_data, laps_data, lap_no) = OK (points_data', laps_data', lap_no') ->
  lap_no' = lap_no + Z.of_nat (length ls) /\
  exists new_laps new_points,
    laps_data' = laps_data ++ new_laps /\
    points_data' = points_data ++ new_points /\
    (fun d : gmap string value => d !! "number") <$> new_laps =
      (fun i => Some (VInt (lap_no + Z.of_nat i))) <$> seq 0 (length ls) /\
    Forall (fun p : gmap string value =>
              exists k, p !! "lap" = Some (VInt k) /\ lap_no <= k < lap_no') new_points.
Proof.
  revert points_data laps_data lap_no.
  induction ls as [|l ls IH]; intros points_data laps_data lap_no; simpl.
  - intros [= <- <- <-]. split; [lia|]. exists [], []. by rewrite !app_nil_r.
  - intros ([[pts1 laps1] n1] & Hstep & Hrest)%bind_OK.
    apply walk_lap_OK in Hstep as (d & track & new & _ & _ & Hnew%stamped_lap & [= -> -> ->]).
    apply IH in Hrest as (-> & new_laps & new_points & -> & -> & Hnum & Hpts).
    split; [lia|]. exists (<["number" := VInt lap_no]> d :: new_laps), (new ++ new_points).
    rewrite <- !app_assoc. repeat split; try done.
    + rewrite fmap_cons, lookup_insert_eq, Hnum, <- fmap_S_seq, <- list_fmap_compose. simpl.
      f_equal; [do 2 f_equal; lia|]. apply list_fmap_ext. intros _ i _. simpl.
      do 2 f_equal. lia.
    + apply Forall_app. split.
      * eapply Forall_impl; [exact Hnew|]. intros p Hp. exists lap_no. split; [done | lia].
      * eapply Forall_impl; [exact Hpts|]. intros p (k & Hk & ?). exists k. split; [done | lia].
Qed.

(** What holds of the lists the walk collects: the numbers of the laps are
    1, 2, ... in document order, and every point carries the number of a
    lap that is in the list. *)
Lemma walk_numbers root points_data laps_data lap_no :
  walk root = OK (points_data, laps_data, lap_no) ->
  (fun d : gmap string value => d !! "number") <$> laps_data =
    (fun i => Some (VInt (Z.of_nat i))) <$> seq 1 (length laps_data) /\
  Forall (fun p : gmap string value =>
            exists k d, p !! "lap" = Some (VInt k) /\
                        d ∈ laps_data /\ d !! "number" = Some (VInt k)) points_data.
Proof.
  unfold walk. intros (activity & _ & Hloop)%bind_OK.
  apply walk_laps_OK in Hloop as (-> & new_laps & new_points & -> & -> & Hnum & Hpts).
  simpl. assert (length new_laps = length (findall activity (child_path "ns" "Lap") NAMESPACES))
    as Hlen by (by rewrite <- (length_fmap (fun d : gmap string value => d !! "number")),
                   Hnum, length_fmap, length_seq).
  rewrite Hlen. split.
  - rewrite Hnum, <- fmap_S_seq, <- list_fmap_compose. apply list_fmap_ext.
    intros _ i _. simpl. do 2 f_equal. lia.
  - eapply Forall_impl; [exact Hpts|]. intros p (k & Hk & Hrange).
    assert (((fun d : gmap string value => d !! "number") <$> new_laps) !! Z.to_nat (k - 1)
            = Some (Some (VInt k))) as Hlook.
    { rewrite Hnum, list_lookup_fmap, lookup_seq_lt by lia. simpl. do 3 f_equal. lia. }
    rewrite list_lookup_fmap in Hlook.
    destruct (new_laps !! Z.to_nat (k - 1)) as [d|] eqn:Hd; simplify_eq/=.
    exists k, d. split; [done|]. split; [by eapply list_elem_of_lookup_2 | done].
Qed.

(** *** The tables *)

Lemma restrict_lookup cols (d : gmap string value) c :
  restrict cols d !! c = if decide (c ∈ cols) then d !! c else None.
Proof.
  unfold restrict. rewrite map_lookup_filter. destruct (d !! c) as [v|]; simpl.
  - case_decide; [by rewrite option_guard_True | by rewrite option_guard_False].
  - by case_decide.
Qed.

(** C8: whatever the document holds, the laps table has the seven columns
    start_time .. avg_hr in this order under the index number, and the
    points table the five columns time .. cadence; a cell holds what the
    record of the walk holds under the column, a field the record lacks is
    a missing value, and a key outside the columns is not in the table: the
    lap stamp of the points is dropped. *)
Theorem tables_have_fixed_columns (root : Element) (laps_df points_df : DataFrame) :
  get_dataframes root = OK (laps_df, points_df) ->
  index_name laps_df = Some "number" /\
  columns laps_df =
    ["start_time"; "distance"; "calories"; "total_time"; "max_speed"; "max_hr"; "avg_hr"] /\
  columns points_df = ["time"; "distance"; "heart_rate"; "watt"; "cadence"] /\
  exists points_data laps_data lap_no,
    walk root = OK (points_data, laps_data, lap_no) /\
    index laps_df = (fun d : gmap string value => d !! "number") <$> laps_data /\
    Forall2 (fun (d r : gmap string value) =>
               forall c, r !! c = if decide (c ∈ columns laps_df) then d !! c else None)
      laps_data (rows laps_df) /\
    Forall2 (fun (d r : gmap string value) =>
               forall c, r !! c = if decide (c ∈ columns points_df) then d !! c else None)
      points_data (rows points_df) /\
    Forall (fun r : gmap string value => r !! "lap" = None) (rows points_df).
Proof.
  unfold get_dataframes. intros ([[points_data laps_data] lap_no] & Hwalk & Htables)%bind_OK.
  simpl in Htables. simplify_eq. simpl. repeat split.
  exists points_data, laps_data, lap_no. repeat split; try done.
  - rewrite <- list_fmap_compose. apply list_fmap_ext. intros _ d _. simpl.
    by rewrite restrict_lookup.
  - rewrite <- list_fmap_compose. apply Forall2_fmap_r, Forall_Forall2_diag, Forall_forall.
    intros d _ c. simpl. destruct (decide (c = "number")) as [->|Hne].
    + by rewrite lookup_delete_eq.
    + rewrite lookup_delete_ne, restrict_lookup by done.
      unfold LAPS_COLUMN_NAMES. rewrite (decide_ext _ _ _ _ (elem_of_cons _ c "number")).
      do 2 destruct (decide _) as [?|?]; tauto.
  - apply Forall2_fmap_r, Forall_Forall2_diag, Forall_forall.
    intros d _ c. by rewrite restrict_lookup.
  - apply Forall_fmap, Forall_forall. intros d _. simpl. by rewrite restrict_lookup.
Qed.

End WalkerProperties.

(** ** Time aligner *)





(** Sorting keeps the rows: the sorted table has the rows of the table, in
    another order. *)
Lemma insert_row_perm col x l : insert_row col x l ≡ₚ x :: l.
Proof.
  induction l as [|y l IH]; simpl; [done|].
  destruct (key_le _ _); [|done]. rewrite IH. apply Permutation_swap.
Qed.

Lemma sort_values_rows_perm col df :
  length (index df) = length (rows df) ->
  rows (sort_values col df) ≡ₚ rows df.
Proof.
  intros Hlen. simpl.
  assert (forall l acc, foldl (fun acc x => insert_row col x acc) acc l ≡ₚ l ++ acc) as Hfold.
  { induction l as [|x l IH]; intros acc; simpl; [done|].
    rewrite IH, insert_row_perm. by rewrite Permutation_middle. }
  rewrite Hfold, app_nil_r. rewrite snd_zip; [done | lia].
Qed.

Lemma is_earliest_perm m l k : l ≡ₚ k -> is_earliest m l -> is_earliest m k.
Proof.
  intros Hperm [Hin Hle]. split; [by rewrite <- Hperm|].
  intros x Hx. apply Hle. by rewrite Hperm.
Qed.

Lemma column_times_sort_values col col' df :
  length (index df) = length (rows df) ->
  column_times (sort_values col df) col' ≡ₚ column_times df col'.
Proof.
  intros Hlen. unfold column_times.
  assert (forall l k : list (gmap string value),
             l ≡ₚ k -> omap (time_of col') l ≡ₚ omap (time_of col') k) as Homap.
  { induction 1 as [|x l k _ IH|x y l|l k k' _ IH1 _ IH2]; simpl.
    - done.
    - destruct (time_of col' x); [by constructor | done].
    - destruct (time_of col' x), (time_of col' y); try done. apply Permutation_swap.
    - by etrans. }
  apply Homap. by apply sort_values_rows_perm.
Qed.


(** *** The merge grouped by time *)

Lemma is_monotonic_cons x l :
  is_monotonic (x :: l) = true <-> Forall (fun y => x <= y) l /\ is_monotonic l = true.
Proof.
  revert x. induction l as [|y l IH]; intros x.
  - simpl. split; [by split | done].
  - change (is_monotonic (x :: y :: l)) with ((x <=? y) && is_monotonic (y :: l)).
    rewrite andb_true_iff, Z.leb_le, Forall_cons. split.
    + intros [Hxy Hmono]. split; [|done]. split; [done|].
      apply IH in Hmono as [Hall _]. eapply Forall_impl; [exact Hall|]. simpl. lia.
    + by intros [[Hxy _] Hmono].
Qed.

Lemma is_monotonic_lookup l i j x y :
  is_monotonic l = true -> (i <= j)%nat -> l !! i = Some x -> l !! j = Some y -> x <= y.
Proof.
  revert i j. induction l as [|z l IH]; intros i j Hmono Hij Hi Hj; [done|].
  apply is_monotonic_cons in Hmono as [Hall Hmono].
  destruct i as [|i], j as [|j]; simplify_eq/=; [lia| |lia|].
  - rewrite Forall_forall in Hall. apply Hall. by eapply list_elem_of_lookup_2.
  - apply (IH i j); [done | lia | done | done].
Qed.

Lemma get_item_set_item k k' pos h :
  get_item k (set_item k' pos h) = if decide (k = k') then Some pos else get_item k h.
Proof. done. Qed.

(** Entering the row at position [n] extends the table by that row. *)
Lemma represents_step h times n r :
  represents h times n -> times !! n = Some r ->
  represents (set_item (Some (VTime r)) (Z.of_nat n) h) times (S n).
Proof.
  intros Hrep Hr t. rewrite get_item_set_item. specialize (Hrep t).
  destruct (decide (Some (VTime t) = Some (VTime r))) as [[= ->]|Hne].
  - rewrite Nat2Z.id. repeat split; [lia | lia | done | lia].
  - assert (t <> r) as Htr by congruence.
    destruct (get_item (Some (VTime t)) h) as [p|].
    + destruct Hrep as (Hp & Hlt & Hlook & Hlast). repeat split; [done | lia | done |].
      intros j Hj. destruct (decide (j = n)) as [->|]; [congruence | apply Hlast; lia].
    + intros j Hj. destruct (decide (j = n)) as [->|]; [congruence | apply Hrep; lia].
Qed.

(** Entering the last row of the table once more changes nothing. *)
Lemma represents_again h times n r :
  represents h times (S n) -> times !! n = Some r ->
  represents (set_item (Some (VTime r)) (Z.of_nat n) h) times (S n).
Proof.
  intros Hrep Hr t. rewrite get_item_set_item. specialize (Hrep t).
  destruct (decide (Some (VTime t) = Some (VTime r))) as [[= ->]|Hne]; [|done].
  rewrite Nat2Z.id. repeat split; [lia | lia | done | lia].
Qed.

(** The inner loop, started at the end of what the table holds: it stops at
    the first row whose time exceeds the time of the left row. *)
Lemma advance_spec pre suf lv h :
  represents h (pre ++ suf) (length pre) ->
  exists n' h',
    advance (keyed suf) lv (Z.of_nat (length pre)) h = (Z.of_nat n', h') /\
    (length pre <= n' <= length (pre ++ suf))%nat /\
    represents h' (pre ++ suf) n' /\
    (forall j r, (length pre <= j < n')%nat -> (pre ++ suf) !! j = Some r -> r <= lv) /\
    (forall r, (pre ++ suf) !! n' = Some r -> lv < r).
Proof.
  revert pre h. induction suf as [|r suf IH]; intros pre h Hrep; simpl.
  - exists (length pre), h. rewrite app_nil_r in *. repeat split; try done; try lia.
    intros r Hr. apply lookup_lt_Some in Hr. lia.
  - destruct (Z.leb_spec r lv) as [Hle|Hgt].
    + destruct (IH (pre ++ [r]) (set_item (Some (VTime r)) (Z.of_nat (length pre)) h))
        as (n' & h' & Hadv & Hn' & Hrep' & Hbelow & Hstop).
      { rewrite <- app_assoc, length_app. simpl. rewrite Nat.add_1_r.
        apply represents_step; [done|]. by rewrite lookup_app_r, Nat.sub_diag. }
      rewrite <- ?app_assoc, ?length_app in *. simpl in *.
      exists n', h'. split.
      { rewrite <- Hadv. do 2 f_equal. lia. }
      split; [lia|]. split; [done|]. split; [|done].
      intros j r' Hj Hr'. destruct (decide (j = length pre)) as [->|].
      * rewrite lookup_app_r, Nat.sub_diag in Hr' by done. by simplify_eq/=.
      * apply (Hbelow j r'); [lia | done].
    + exists (length pre), h. split; [done|]. split; [rewrite length_app; lia|].
      split; [done|]. split; [intros; lia|].
      intros r'. rewrite lookup_app_r, Nat.sub_diag by done. intros [= <-]. lia.
Qed.

Lemma keyed_drop n times : drop n (keyed times) = keyed (drop n times).
Proof. unfold keyed. by rewrite fmap_drop. Qed.

(** The loop over the left rows: the position found for a left row is that
    of the last right row with its time. *)
Lemma asof_sweep_exact rights lefts right_pos h n :
  is_monotonic rights = true ->
  is_monotonic lefts = true ->
  represents h rights n -> (n <= length rights)%nat ->
  right_pos = Z.of_nat n - 1 \/ (right_pos = 0 /\ n = 0%nat) ->
  (forall j r lv, (j < n)%nat -> rights !! j = Some r -> lv ∈ lefts -> r <= lv) ->
  Forall2 (exact_match rights) lefts (asof_sweep (keyed rights) (keyed lefts) right_pos h).
Proof.
  intros Hright. revert right_pos h n.
  induction lefts as [|lv lefts IH]; intros right_pos h n Hleft Hrep Hn Hpos Hbelow; simpl.
  { constructor. }
  apply is_monotonic_cons in Hleft as [Hlv Hleft].
  (* the table and the position at which the inner loop proper starts *)
  assert (exists h1,
             advance (drop (Z.to_nat (if right_pos <? 0 then 0 else right_pos)) (keyed rights))
               lv (if right_pos <? 0 then 0 else right_pos) h
             = advance (keyed (drop n rights)) lv (Z.of_nat n) h1 /\
             represents h1 rights n) as (h1 & -> & Hrep1).
  { destruct n as [|n].
    - exists h. split; [|done].
      assert ((if right_pos <? 0 then 0 else right_pos) = 0) as -> by (destruct Hpos as [->|[-> _]]; done).
      done.
    - destruct Hpos as [->|[_ [=]]].
      replace (Z.of_nat (S n) - 1) with (Z.of_nat n) by lia.
      assert ((if Z.of_nat n <? 0 then 0 else Z.of_nat n) = Z.of_nat n) as ->
        by (destruct (Z.ltb_spec (Z.of_nat n) 0); lia).
      rewrite Nat2Z.id, keyed_drop.
      destruct (lookup_lt_is_Some_2 rights n) as [r Hr]; [lia|].
      rewrite (drop_S _ _ _ Hr). simpl.
      assert ((r <=? lv) = true) as ->.
      { apply Z.leb_le, (Hbelow n r lv); [lia | done | apply list_elem_of_here]. }
      exists (set_item (Some (VTime r)) (Z.of_nat n) h). split.
      + do 2 f_equal. lia.
      + by apply represents_again. }
  destruct (advance_spec (take n rights) (drop n rights) lv h1)
    as (n' & h' & Hadv & Hn' & Hrep' & Hin & Hstop).
  { rewrite take_drop, length_take_le by done. done. }
  rewrite take_drop, length_take_le in * by done.
  rewrite Hadv. constructor.
  - (* the position found for this row *)
    specialize (Hrep' lv). unfold exact_match.
    assert (forall j, (n' <= j)%nat -> rights !! j <> Some lv) as Hafter.
    { intros j Hj Hlook. destruct (rights !! n') as [r|] eqn:Hr.
      - specialize (Hstop r eq_refl).
        pose proof (is_monotonic_lookup rights n' j r lv Hright Hj Hr Hlook). lia.
      - apply lookup_ge_None in Hr. apply lookup_lt_Some in Hlook. lia. }
    destruct (get_item (Some (VTime lv)) h') as [p|]; simpl.
    + destruct Hrep' as (Hp & Hlt & Hlook & Hlast). right. repeat split; try done.
      intros j' Hj'. destruct (decide (j' < n')%nat); [apply Hlast; lia | apply Hafter; lia].
    + left. split; [done|]. intros (j & Hj)%list_elem_of_lookup_1.
      destruct (decide (j < n')%nat); [by apply (Hrep' j) | apply (Hafter j); [lia | done]].
  - apply (IH _ h' n'); try done; [lia | left; lia |].
    intros j r lv' Hj Hr Hlv'.
    assert (r <= lv); [|rewrite Forall_forall in Hlv; specialize (Hlv lv' Hlv'); lia].
    destruct (decide (j < n)%nat).
    + apply (Hbelow j r lv); [done | done | apply list_elem_of_here].
    + apply (Hin j r); [lia | done].
Qed.

Lemma asof_join_by_on_exact lefts rights :
  is_monotonic lefts = true -> is_monotonic rights = true ->
  Forall2 (exact_match rights) lefts
    (asof_join_backward_on_X_by_Y (keyed lefts) (keyed rights)).
Proof.
  intros Hleft Hright. unfold asof_join_backward_on_X_by_Y.
  apply (asof_sweep_exact rights lefts 0 [] 0); [done | done | | lia | by right |].
  - intros t j Hj. lia.
  - intros j r lv Hj. lia.
Qed.

Lemma filter_none {A} (P : A -> bool) (l : list A) :
  (forall j y, l !! j = Some y -> P y = false) -> List.filter P l = [].
Proof.
  induction l as [|a l IH]; intros Hall; [done|]. simpl.
  rewrite (Hall 0%nat a eq_refl). apply IH. intros j y Hy. by apply (Hall (S j)).
Qed.

Lemma last_filter_found {A} (P : A -> bool) (l : list A) j x :
  l !! j = Some x -> P x = true ->
  (forall j' y, (j < j')%nat -> l !! j' = Some y -> P y = false) ->
  last (List.filter P l) = Some x.
Proof.
  revert j. induction l as [|a l IH]; intros j Hj HP Hafter; [done|].
  destruct j as [|j]; simplify_eq/=.
  - rewrite HP, filter_none; [done|]. intros j y Hy. apply (Hafter (S j)); [lia | done].
  - assert (last (List.filter P l) = Some x) as Hlast.
    { apply (IH j); [done | done |]. intros j' y Hj' Hy. apply (Hafter (S j')); [lia | done]. }
    destruct (P a); [|done]. by rewrite last_cons, Hlast.
Qed.

(** The keys of a table grouped by its time column. *)
Lemma merge_keys_by_on df ks :
  merge_keys df "time" "time" = OK ks ->
  ks = keyed ks.*1 /\
  Forall2 (fun (r : gmap string value) t => time_of "time" r = Some t) (rows df) ks.*1.
Proof.
  unfold merge_keys. destruct (mapM _ (rows df)) as [ks'|] eqn:Hks; [|done].
  intros [= <-]. apply mapM_Some in Hks.
  induction Hks as [|r [t b] rws ks Hr _ [IH1 IH2]]; [by split; [|constructor]|].
  unfold time_of in Hr. simpl.
  destruct (r !! "time") as [[u| |]|] eqn:Htime; simplify_eq/=.
  split; [f_equal; exact IH1|]. constructor; [|done]. unfold time_of. by rewrite Htime.
Qed.

(** What a merged row holds as heart rate. *)
Lemma merge_row_heart_rate right samples times l j t :
  rows right = restrict ["time"; "heart_rate"] <$> samples ->
  l !! "heart_rate" = None ->
  Forall2 (fun (r : gmap string value) u => time_of "time" r = Some u) samples times ->
  exact_match times t j ->
  merge_row right "time" "time" l j !! "heart_rate" = same_time_heart_rate samples t.
Proof.
  intros Hrows Hl Htimes Hmatch. unfold merge_row, same_time_heart_rate.
  destruct Hmatch as [[-> Hnone]|(Hj & Hlook & Hlast)].
  - simpl. rewrite filter_none; [done|]. intros i s Hs. apply bool_decide_eq_false.
    intros Ht. apply Hnone.
    destruct (Forall2_lookup_l _ _ _ _ _ Htimes Hs) as (u & Hu & Hsu).
    apply list_elem_of_lookup_2 with i. congruence.
  - destruct (Z.ltb_spec j 0) as [|_]; [lia|].
    destruct (Forall2_lookup_r _ _ _ _ _ Htimes Hlook) as (s & Hs & Hst).
    rewrite Hrows, list_lookup_fmap, Hs. simpl.
    rewrite (last_filter_found _ samples (Z.to_nat j) s); [|done|by apply bool_decide_eq_true|].
    + simpl. rewrite lookup_union_r by done.
      rewrite !lookup_delete_ne by done. by rewrite restrict_lookup.
    + intros j' s' Hj' Hs'. apply bool_decide_eq_false. intros Ht.
      destruct (Forall2_lookup_l _ _ _ _ _ Htimes Hs') as (u & Hu & Hsu).
      apply (Hlast j' Hj'). congruence.
Qed.

Lemma restrict_time_of cols (r : gmap string value) :
  "time" ∈ cols -> time_of "time" (restrict cols r) = time_of "time" r.
Proof. intros Hin. unfold time_of. by rewrite restrict_lookup, decide_True. Qed.

(** The merge of line 200 in general: when it returns, the heart rate of
    each merged row is that of the last sample of the wrist device whose
    time equals the time of the row, and missing when no sample has exactly
    that time. *)
Lemma merged_dataframe_exact_times (a : alignment) (m : DataFrame) :
  merged_dataframe a = OK m ->
  Forall2 (fun (row : gmap string value) h =>
             exists t, time_of "time" row = Some t /\
                       h = same_time_heart_rate (rows (points_garmin a)) t)
    (rows (points_concept2 a)) (heart_rates m).
Proof.
  unfold merged_dataframe.
  intros (left & Hl & (right & Hr & Hmerge)%bind_OK)%bind_OK.
  unfold select in Hl, Hr.
  destruct (forallb _ _); [|done]. destruct (forallb _ _); [|done].
  injection Hl as <-. injection Hr as <-. revert Hmerge. unfold merge_asof.
  intros (lk & Hlk & (rk & Hrk & Hm)%bind_OK)%bind_OK.
  destruct (is_monotonic lk.*1 && is_monotonic rk.*1) eqn:Hmono; [|done].
  apply andb_true_iff in Hmono as [Hleft Hright]. injection Hm as <-.
  apply merge_keys_by_on in Hlk as [Hlk Hltimes], Hrk as [Hrk Hrtimes].
  rewrite Hlk, Hrk. simpl in Hltimes, Hrtimes.
  apply Forall2_fmap_l in Hltimes, Hrtimes.
  assert (Forall2 (fun (r : gmap string value) u => time_of "time" r = Some u)
            (rows (points_garmin a)) rk.*1) as Hsamples.
  { eapply Forall2_impl; [exact Hrtimes|]. intros r u. simpl.
    rewrite restrict_time_of; [done | apply list_elem_of_here]. }
  pose proof (asof_join_by_on_exact _ _ Hleft Hright) as Hexact.
  unfold heart_rates. cbn [rows].
  revert Hltimes Hexact.
  generalize (asof_join_backward_on_X_by_Y (keyed lk.*1) (keyed rk.*1)).
  generalize (lk.*1). generalize (rows (points_concept2 a)).
  intros rws. induction rws as [|row rws IH]; intros ts js Hts Hjs.
  - apply Forall2_nil_inv_l in Hts as ->. apply Forall2_nil_inv_l in Hjs as ->. constructor.
  - apply Forall2_cons_inv_l in Hts as (t & ts' & Ht & Hts & ->).
    apply Forall2_cons_inv_l in Hjs as (j & js' & Hj & Hjs & ->).
    simpl. constructor; [|by apply (IH ts')].
    exists t. split.
    + simpl in Ht. rewrite restrict_time_of in Ht; [done | apply list_elem_of_here].
    + apply merge_row_heart_rate with rk.*1; [done | | done | done].
      rewrite restrict_lookup. apply decide_False. compute_done.
Qed.

(** ** Runs on the sample documents *)

Section Runs.
Import Fixture.
#[local] Existing Instance runtime.

Ltac no_child := intros x Hx; vm_compute in Hx; discriminate.
Ltac child := vm_compute; repeat first [apply list_elem_of_here | apply list_elem_of_further].

(** Lap starts 10:00:05 and 09:58:00 give an offset of 125 seconds, and the
    points of the rowing machine move by it. *)
Example offset_125_seconds :
  (fun a => (offset a, column_times (laps_concept2 a) "start_time",
             column_times (points_concept2 a) "time"))
    <$> align (laps_table [36005]) (points_table [sample 36005 100])
              [laps_table [35880]] [points_table [stroke 35880 150; stroke 35882 160]]
  = OK (seconds 125, [seconds 36005], [seconds 36005; seconds 36007]).
Proof. vm_compute. reflexivity. Qed.


(** C1: on the samples of the claim the merge of line 200 attaches no heart
    rate at all, where carrying the last observation forward gives 100 and
    110: the merge is grouped by the time itself, so a row of the rowing
    machine only gets the heart rate of a sample with exactly its time (the
    row at 10 s gets 110, the rows at 3 s and 12 s nothing). *)
Theorem merge_by_time_misses_earlier_samples :
  let device_a := [sample 0 100; sample 10 110] in
  let merged strokes :=
    heart_rates <$> (align (laps_table [0]) (points_table device_a)
                           [laps_table [0]] [points_table strokes]
                     ≫= merged_dataframe) in
  merged [stroke 3 150; stroke 12 160] = OK [None; None] /\
  carried_forward device_a (seconds 3) = Some (VInt 100) /\
  carried_forward device_a (seconds 12) = Some (VInt 110) /\
  merged [stroke (-1) 140; stroke 3 150; stroke 10 155; stroke 12 160]
    = OK [None; None; Some (VInt 110); None] /\
  carried_forward device_a (seconds (-1)) = None.
Proof. vm_compute. repeat split. Qed.

(** C3: the walk numbers the laps 1, 2 and stamps the three points with 1,
    1, 2, but the points table that [get_dataframes] returns has no lap
    column and no lap value in any row. *)
Theorem lap_stamp_missing_from_points_table :
  (fun st : walk_state =>
     ((fun d : gmap string value => d !! "number") <$> st.1.2,
      (fun p : gmap string value => p !! "lap") <$> st.1.1)) <$> walk doc_two_laps
    = OK ([Some (VInt 1); Some (VInt 2)], [Some (VInt 1); Some (VInt 1); Some (VInt 2)]) /\
  (fun tables : DataFrame * DataFrame =>
     (index tables.1, columns tables.2,
      (fun r : gmap string value => r !! "lap") <$> rows tables.2)) <$> get_dataframes doc_two_laps
    = OK ([Some (VInt 1); Some (VInt 2)],
          ["time"; "distance"; "heart_rate"; "watt"; "cadence"],
          [None; None; None]).
Proof. vm_compute. split; reflexivity. Qed.

(** C4 as stated fails: a Watts element whose text is one space makes the
    extraction raise instead of giving watt = 0.0. *)
Lemma blank_watts_raises :
  find point_watts_blank (descendant_path "ns3" "Watts") NAMESPACES = Some (leaf (ns3 "Watts") " ") /\
  blank " " /\
  get_tcx_trackpoint_data point_watts_blank = Raise ValueError.
Proof.
  split; [reflexivity|]. split; [|vm_compute; reflexivity].
  repeat constructor.
Qed.

Lemma point_watts_empty_fields_ok : trackpoint_fields_ok point_watts_empty.
Proof.
  split; [|repeat split; no_child].
  eexists. split; [reflexivity|]. eexists. vm_compute. reflexivity.
Defined.

Lemma empty_watts_defaults_to_zero_witness :
  exists d, get_tcx_trackpoint_data point_watts_empty = OK d /\
            d !! "watt" = Some (VFloat 0).
Proof.
  destruct (empty_watts_defaults_to_zero point_watts_empty (empty (ns3 "Watts")) eq_refl)
    as [Hempty _].
  destruct (Hempty (or_introl eq_refl)) as [Hok Hzero].
  destruct (Hok point_watts_empty_fields_ok) as [d Hd].
  exists d. split; [exact Hd | exact (Hzero d Hd)].
Defined.

Lemma lap_scenario_well_formed : lap_well_formed lap_scenario.
Proof.
  split; [|split; [|repeat split; no_child]].
  - exists "2022-01-03T14:00:00Z". split; [reflexivity|].
    split; eexists; vm_compute; reflexivity.
  - intros x Hx. vm_compute in Hx. injection Hx as <-. eexists. vm_compute. reflexivity.
Defined.

Lemma lap_extraction_keys_witness :
  exists d, get_tcx_lap_data lap_scenario = OK d /\
            is_Some (d !! "start_time") /\ is_Some (d !! "distance") /\
            d !! "calories" = None.
Proof.
  destruct (lap_extraction_keys lap_scenario) as [Hok Hkeys].
  destruct (Hok lap_scenario_well_formed) as [d Hd].
  destruct (Hkeys d Hd) as ([t Ht] & Hiff & Habsent).
  exists d. split; [exact Hd|]. split; [by eexists|]. split.
  - apply Hiff. right. exists "DistanceMeters". split; [compute_done | by eexists].
  - apply (Habsent "calories" "Calories"); compute_done.
Defined.

Lemma trackpoint_without_time_fails_witness :
  get_tcx_trackpoint_data point_no_time = Raise AttributeError /\
  forall lap_no points_data, walk_point lap_no points_data point_no_time = Raise AttributeError.
Proof. apply trackpoint_without_time_fails. compute_done. Defined.

(** C7 as stated fails: here no activity node is under the container, and
    [get_dataframes] returns two empty tables instead of failing; and when a
    session precedes the activity, the session is what is processed, so the
    lap of the activity is not in the tables. *)
Lemma session_only_container_does_not_fail :
  (exists activities,
     find doc_session_only (child_path "ns" "Activities") NAMESPACES = Some activities /\
     Forall (fun c => tag c <> clark NAMESPACES "ns" "Activity") (children activities)) /\
  (fun tables : DataFrame * DataFrame => (rows tables.1, rows tables.2))
    <$> get_dataframes doc_session_only = OK ([], []) /\
  (fun tables : DataFrame * DataFrame => (rows tables.1, rows tables.2))
    <$> get_dataframes doc_session_first = OK ([], []).
Proof.
  split; [|split; vm_compute; reflexivity].
  eexists. split; [reflexivity|]. compute_done.
Qed.

Lemma first_child_of_container_is_processed_witness :
  get_dataframes doc_no_container = Raise TypeError /\
  get_dataframes doc_empty_container = Raise IndexError /\
  get_dataframes doc_session_first = get_dataframes doc_session_only.
Proof.
  split; [|split].
  - by apply (first_child_of_container_is_processed doc_no_container).
  - by apply (first_child_of_container_is_processed doc_empty_container)
      with (node (ns "Activities") []).
  - destruct (first_child_of_container_is_processed doc_session_only) as (_ & _ & Hfirst).
    destruct (Hfirst (node (ns "Activities") [node (ns "MultiSportSession") []])
                (node (ns "MultiSportSession") []) [] eq_refl eq_refl) as [_ Hsame].
    by eapply Hsame.
Defined.

Lemma tables_have_fixed_columns_witness :
  exists laps_df points_df,
    get_dataframes doc_two_laps = OK (laps_df, points_df) /\
    columns laps_df =
      ["start_time"; "distance"; "calories"; "total_time"; "max_speed"; "max_hr"; "avg_hr"] /\
    columns points_df = ["time"; "distance"; "heart_rate"; "watt"; "cadence"] /\
    Forall (fun r : gmap string value => r !! "lap" = None) (rows points_df).
Proof.
  destruct (get_dataframes doc_two_laps) as [[laps_df points_df]|e] eqn:Hget;
    [|vm_compute in Hget; discriminate].
  exists laps_df, points_df. split; [reflexivity|].
  destruct (tables_have_fixed_columns doc_two_laps laps_df points_df Hget)
    as (_ & Hlaps & Hpoints & _ & _ & _ & _ & _ & _ & _ & Hlap).
  by repeat split.
Defined.

Lemma watts_searched_in_subtree_witness :
  exists d, get_tcx_trackpoint_data point_full = OK d /\ is_Some (d !! "watt") /\
  exists d', get_tcx_trackpoint_data point_nested_cadence = OK d' /\ d' !! "cadence" = None.
Proof.
  destruct (get_tcx_trackpoint_data point_full) as [d|e] eqn:Hd;
    [|vm_compute in Hd; discriminate].
  destruct (get_tcx_trackpoint_data point_nested_cadence) as [d'|e] eqn:Hd';
    [|vm_compute in Hd'; discriminate].
  destruct (watts_searched_in_subtree point_full) as [_ Hfull].
  destruct (watts_searched_in_subtree point_nested_cadence) as [_ Hnested].
  exists d. split; [reflexivity|]. split.
  - apply (Hfull d Hd). exists (leaf (ns3 "Watts") "180"). split; [|reflexivity].
    apply descendant_deeper with (watts_extension (leaf (ns3 "Watts") "180")); [child|].
    apply descendant_deeper with (node (ns3 "TPX") [leaf (ns3 "Watts") "180"]); [child|].
    apply descendant_child. child.
  - exists d'. split; [reflexivity|]. apply eq_None_not_Some.
    destruct (Hnested d' Hd') as (_ & Hcadence & _).
    intros Hsome. destruct (proj1 Hcadence Hsome) as (c & Hc & Htag).
    revert c Hc Htag.
    apply (Forall_forall (fun c => tag c <> clark NAMESPACES "ns" "Cadence")).
    compute_done.
Defined.

Lemma lap_without_track_fails_file_witness :
  raises (get_dataframes doc_lap_without_track) /\
  (fun st : walk_state => (length st.1.1, length st.1.2, st.2))
    <$> walk_lap ([], [], 1) (lap_with "2022-01-03T14:00:00Z" [node (ns "Track") []])
    = OK (0%nat, 1%nat, 2).
Proof.
  split.
  - destruct (lap_without_track_fails_file (lap_with "2022-01-03T14:00:00Z" []))
      as [Hno _].
    destruct Hno as (_ & _ & Hfile); [constructor|].
    apply (Hfile doc_lap_without_track
             (node (ns "Activity") [lap_with "2022-01-03T14:00:00Z" []]));
      [reflexivity | child | reflexivity].
  - destruct (get_tcx_lap_data (lap_with "2022-01-03T14:00:00Z" [node (ns "Track") []]))
      as [d|e] eqn:Hd; [|vm_compute in Hd; discriminate].
    destruct (lap_without_track_fails_file (lap_with "2022-01-03T14:00:00Z" [node (ns "Track") []]))
      as [_ Hempty].
    rewrite (Hempty (node (ns "Track") []) [] [] 1 d eq_refl ltac:(constructor) Hd).
    reflexivity.
Defined.

End Runs.

(** * Further properties of the extractor *)

(** The search returns the first candidate with the tag. *)
Lemma head_filter_first {A} (P : A -> bool) (l : list A) x :
  head (List.filter P l) = Some x <->
  exists before after, l = before ++ x :: after /\ P x = true /\
                       Forall (fun y => P y = false) before.
Proof.
  induction l as [|a l IH]; simpl.
  - split; [done|]. intros (before & after & Hl & _). by destruct before.
  - destruct (P a) eqn:Ha; simpl.
    + split.
      * intros [= ->]. exists [], l. by repeat split.
      * intros (before & after & Hl & Hx & Hbefore). destruct before as [|b before].
        -- by simplify_eq/=.
        -- simplify_eq/=. apply Forall_cons in Hbefore as [Hb _]. congruence.
    + rewrite IH. split.
      * intros (before & after & -> & Hx & Hbefore). exists (a :: before), after.
        repeat split; [done|]. by constructor.
      * intros (before & after & Hl & Hx & Hbefore). destruct before as [|b before].
        -- simplify_eq/=. congruence.
        -- simplify_eq/=. apply Forall_cons in Hbefore as [_ Hbefore].
           by exists before, after.
Qed.

Lemma has_tag_false t e : has_tag t e = false <-> tag e <> t.
Proof. apply String.eqb_neq. Qed.

Lemma find_first_child e name x :
  find e (child_path "ns" name) NAMESPACES = Some x <-> first_child e name x.
Proof.
  unfold find, findall, first_child. rewrite head_filter_first. simpl.
  split; intros (before & after & Hl & Htag & Hbefore); exists before, after;
    (split; [done|]); (split; [by apply has_tag_true|]);
    (eapply Forall_impl; [exact Hbefore|]); intros c; by rewrite has_tag_false.
Qed.







Lemma value_child_missing x :
  Forall (fun c => tag c <> clark NAMESPACES "ns" "Value") (children x) ->
  float_value x = Raise AttributeError /\ int_value x = Raise AttributeError.
Proof.
  intros Hno%find_child_None. unfold float_value, int_value, value_child.
  by rewrite Hno.
Qed.

Section MoreExtractorProperties.
Context {rt : Runtime}.


(** X1: a timestamp text without an offset is not taken as local time nor as
    UTC: the conversion raises TypeError, and so does the extraction of a lap
    with such a StartTime and of a track point with such a Time. *)
Theorem naive_timestamp_raises (s : string) (w : Z) :
  to_datetime s = OK {| wall := w; utcoffset := None |} ->
  convert_local (Some s) = Raise TypeError /\
  (forall lap, attrib lap !! "StartTime" = Some s ->
               get_tcx_lap_data lap = Raise TypeError) /\
  (forall tp te, first_child tp "Time" te -> text te = Some s ->
                 get_tcx_trackpoint_data tp = Raise TypeError).
Proof.
  intros Hs.
  assert (convert_local (Some s) = Raise TypeError) as Hconv.
  { unfold convert_local. by rewrite Hs. }
  split; [done|]. split.
  - intros lap Hattr. unfold get_tcx_lap_data. rewrite Hattr. simpl from_option.
    unfold mbind at 1, result_bind at 1. by rewrite Hconv.
  - intros tp te Hte%find_first_child Htext. unfold get_tcx_trackpoint_data.
    rewrite Hte. simpl deref. unfold mbind at 1, result_bind at 1.
    by rewrite Htext, Hconv.
Qed.

(** X2: the local time depends on the instant only, not on the offset the
    text is written with: two texts for the same instant convert to the same
    local time, the instant plus the offset of the machine's zone. *)
Theorem convert_local_same_instant (s1 s2 : string) (ts1 ts2 : Timestamp) (o1 o2 : Z) :
  to_datetime s1 = OK ts1 -> to_datetime s2 = OK ts2 ->
  utcoffset ts1 = Some o1 -> utcoffset ts2 = Some o2 ->
  wall ts1 - o1 = wall ts2 - o2 ->
  convert_local (Some s1) = OK (wall ts1 - o1 + local_utcoffset (wall ts1 - o1)) /\
  convert_local (Some s2) = convert_local (Some s1).
Proof.
  intros H1 H2 Ho1 Ho2 Hsame. unfold convert_local, astimezone_local_naive.
  rewrite H1, H2. simpl. by rewrite Ho1, Ho2, Hsame.
Qed.

(** X3: a lap without a StartTime attribute makes the extraction raise
    KeyError whatever else the lap holds, and the walk stops there. *)
Theorem lap_without_start_time_raises (lap : Element) :
  attrib lap !! "StartTime" = None ->
  get_tcx_lap_data lap = Raise KeyError /\
  forall st, walk_lap st lap = Raise KeyError.
Proof.
  intros Hno.
  assert (get_tcx_lap_data lap = Raise KeyError) as Hget.
  { unfold get_tcx_lap_data. by rewrite Hno. }
  split; [done|]. intros [[points_data laps_data] lap_no]. unfold walk_lap. by rewrite Hget.
Qed.

Lemma get_tcx_lap_data_inv lap d :
  get_tcx_lap_data lap = OK d ->
  exists s t d1 d2 d3 d4 d5,
    attrib lap !! "StartTime" = Some s /\
    convert_local (Some s) = OK t /\
    set_if_present (<["start_time" := VTime t]> ∅) "distance"
      (find lap (child_path "ns" "DistanceMeters") NAMESPACES) float_text = OK d1 /\
    set_if_present d1 "calories"
      (find lap (child_path "ns" "Calories") NAMESPACES) int_text = OK d2 /\
    set_if_present d2 "total_time"
      (find lap (child_path "ns" "TotalTimeSeconds") NAMESPACES) float_text = OK d3 /\
    set_if_present d3 "max_speed"
      (find lap (child_path "ns" "MaximumSpeed") NAMESPACES) float_text = OK d4 /\
    set_if_present d4 "max_hr"
      (find lap (child_path "ns" "MaximumHeartRateBpm") NAMESPACES) float_value = OK d5 /\
    set_if_present d5 "avg_hr"
      (find lap (child_path "ns" "AverageHeartRateBpm") NAMESPACES) float_value = OK d.
Proof.
  unfold get_tcx_lap_data.
  intros (s & Hs & (t & Ht & (u & _ & (d1 & H1 & (d2 & H2 & (d3 & H3 & (d4 & H4 &
    (d5 & H5 & (d6 & H6 & [= <-])%bind_OK)%bind_OK)%bind_OK)%bind_OK)%bind_OK)
    %bind_OK)%bind_OK)%bind_OK)%bind_OK.
  exists s, t, d1, d2, d3, d4, d5. repeat split; try done.
  by destruct (attrib lap !! "StartTime"); simplify_eq/=.
Qed.




(** X6: a heart-rate element that has no Value child makes the extraction
    raise, for the maximum and the average of a lap and for the heart rate
    of a track point alike. *)
Theorem heart_rate_without_value_raises (x : Element) :
  Forall (fun c => tag c <> clark NAMESPACES "ns" "Value") (children x) ->
  (forall lap, first_child lap "MaximumHeartRateBpm" x \/
               first_child lap "AverageHeartRateBpm" x ->
               raises (get_tcx_lap_data lap)) /\
  (forall tp, first_child tp "HeartRateBpm" x -> raises (get_tcx_trackpoint_data tp)).
Proof.
  intros [Hfloat Hint]%value_child_missing. split.
  - intros lap Hx. apply not_OK_raises. intros [d Hd].
    apply get_tcx_lap_data_inv in Hd
      as (s & t & d1 & d2 & d3 & d4 & d5 & _ & _ & _ & _ & _ & _ & H5 & H6).
    destruct Hx as [Hx%find_first_child|Hx%find_first_child].
    + rewrite Hx in H5. apply set_if_present_value in H5 as (v & Hv & _). congruence.
    + rewrite Hx in H6. apply set_if_present_value in H6 as (v & Hv & _). congruence.
  - intros tp Hx%find_first_child.
    apply (get_tcx_trackpoint_data_field_raises tp "heart_rate" "HeartRateBpm" int_value x);
      [rewrite !elem_of_cons; tauto | done | by exists AttributeError].
Qed.

Lemma elem_of_walked_points activity tp :
  tp ∈ walked_points activity <->
  exists lap track,
    lap ∈ findall activity (child_path "ns" "Lap") NAMESPACES /\
    find lap (child_path "ns" "Track") NAMESPACES = Some track /\
    tp ∈ findall track (child_path "ns" "Trackpoint") NAMESPACES.
Proof.
  unfold walked_points. rewrite list_elem_of_bind. split.
  - intros (lap & Htp & Hlap). destruct (find lap _ NAMESPACES) as [track|] eqn:Htrack.
    + by exists lap, track.
    + by apply elem_of_nil in Htp.
  - intros (lap & track & Hlap & Htrack & Htp). exists lap. by rewrite Htrack.
Qed.

(** X7: no partial tables: when the extraction of any lap of the processed
    activity raises, or that of any track point the walk visits,
    [get_dataframes] raises for the whole file. *)
Theorem failing_node_fails_file (root activity : Element) :
  first_activity root = OK activity ->
  (forall lap, lap ∈ findall activity (child_path "ns" "Lap") NAMESPACES ->
               raises (get_tcx_lap_data lap) -> raises (get_dataframes root)) /\
  (forall tp, tp ∈ walked_points activity ->
              raises (get_tcx_trackpoint_data tp) -> raises (get_dataframes root)).
Proof.
  intros Hact.
  assert (forall lap, lap ∈ findall activity (child_path "ns" "Lap") NAMESPACES ->
                      (forall st, raises (walk_lap st lap)) -> raises (get_dataframes root))
    as Hfile.
  { intros lap Hlap Hraise. apply get_dataframes_raises. unfold walk. rewrite Hact.
    by apply for_each_raises with lap. }
  split.
  - intros lap Hlap [e He]. apply (Hfile lap Hlap).
    intros [[points_data laps_data] lap_no]. unfold walk_lap. rewrite He. by exists e.
  - intros tp (lap & track & Hlap & Htrack & Htp)%elem_of_walked_points [e He].
    apply (Hfile lap Hlap). intros [[points_data laps_data] lap_no]. unfold walk_lap.
    destruct (get_tcx_lap_data lap) as [d|e']; [|by exists e'].
    rewrite Htrack. simpl. apply bind_raises, for_each_raises with tp; [done|].
    intros pts. unfold walk_point. rewrite He. by exists e.
Qed.

End MoreExtractorProperties.

(** * Further properties of the walker *)

Section MoreWalkerProperties.
Context {rt : Runtime}.

(** The loop over the laps appends one record per lap and one per track
    point of the first track of each lap, in document order. *)
Lemma walk_laps_rows ls points_data laps_data lap_no points_data' laps_data' lap_no' :
  for_each walk_lap ls (points_data, laps_data, lap_no) = OK (points_data', laps_data', lap_no') ->
  exists new_laps new_points,
    laps_data' = laps_data ++ new_laps /\
    points_data' = points_data ++ new_points /\
    Forall2 (fun lap (r : gmap string value) =>
               exists d k, get_tcx_lap_data lap = OK d /\ r = <["number" := VInt k]> d)
      ls new_laps /\
    Forall2 (fun tp (p : gmap string value) =>
               exists d k, get_tcx_trackpoint_data tp = OK d /\ p = <["lap" := VInt k]> d)
      (lap ← ls;
       from_option (fun track => findall track (child_path "ns" "Trackpoint") NAMESPACES) []
         (find lap (child_path "ns" "Track") NAMESPACES))
      new_points.
Proof.
  revert points_data laps_data lap_no.
  induction ls as [|l ls IH]; intros points_data laps_data lap_no; simpl.
  - intros [= <- <- <-]. exists [], []. rewrite !app_nil_r. repeat split; constructor.
  - intros ([[pts1 laps1] n1] & Hstep & Hrest)%bind_OK.
    apply walk_lap_OK in Hstep as (d & track & new & Hd & Htrack & Hnew & [= -> -> ->]).
    apply IH in Hrest as (new_laps & new_points & -> & -> & Hlaps & Hpoints).
    exists (<["number" := VInt lap_no]> d :: new_laps), (new ++ new_points).
    rewrite <- !app_assoc. repeat split; try done.
    + constructor; [by exists d, lap_no | done].
    + rewrite Htrack. simpl. apply Forall2_app; [|done].
      eapply Forall2_impl; [exact Hnew|]. intros tp p (d' & Hd' & ->). by exists d', lap_no.
Qed.

Lemma restrict_without_lap (d : gmap string value) k :
  restrict TRACKPOINT_COLUMN_NAMES (<["lap" := VInt k]> d) = restrict TRACKPOINT_COLUMN_NAMES d.
Proof.
  apply map_eq. intros c. rewrite !restrict_lookup.
  destruct (decide (c ∈ TRACKPOINT_COLUMN_NAMES)) as [Hin|]; [|done].
  apply lookup_insert_ne. intros <-. revert Hin. compute_done.
Qed.

Lemma restrict_without_number (d : gmap string value) k :
  delete "number" (restrict LAPS_COLUMN_NAMES (<["number" := VInt k]> d)) =
  restrict ["start_time"; "distance"; "calories"; "total_time"; "max_speed"; "max_hr"; "avg_hr"] d.
Proof.
  apply map_eq. intros c. destruct (decide (c = "number")) as [->|Hne].
  - rewrite lookup_delete_eq, restrict_lookup. by rewrite decide_False by compute_done.
  - rewrite lookup_delete_ne, !restrict_lookup, lookup_insert_ne by done.
    unfold LAPS_COLUMN_NAMES. rewrite (decide_ext _ _ _ _ (elem_of_cons _ c "number")).
    do 2 destruct (decide _) as [?|?]; tauto.
Qed.

(** X8: the tables follow the document: the index of the lap table is
    1, 2, ..., one label per Lap child of the processed activity; its rows
    are the records of those laps in document order; the rows of the point
    table are the records of the Trackpoint children of the first Track of
    each lap, lap after lap, each cut down to the columns of the table. *)
Theorem tables_follow_document_order (root activity : Element) (laps_df points_df : DataFrame) :
  first_activity root = OK activity ->
  get_dataframes root = OK (laps_df, points_df) ->
  index laps_df =
    (fun i => Some (VInt (Z.of_nat i)))
      <$> seq 1 (length (findall activity (child_path "ns" "Lap") NAMESPACES)) /\
  Forall2 (fun lap (row : gmap string value) =>
             exists d, get_tcx_lap_data lap = OK d /\ row = restrict (columns laps_df) d)
    (findall activity (child_path "ns" "Lap") NAMESPACES) (rows laps_df) /\
  Forall2 (fun tp (row : gmap string value) =>
             exists d, get_tcx_trackpoint_data tp = OK d /\ row = restrict (columns points_df) d)
    (walked_points activity) (rows points_df).
Proof.
  intros Hact. unfold get_dataframes.
  intros ([[points_data laps_data] lap_no] & Hwalk & Htables)%bind_OK.
  simpl in Htables. simplify_eq. simpl.
  unfold walk in Hwalk. rewrite Hact in Hwalk. simpl in Hwalk.
  destruct (walk_laps_OK _ _ _ _ _ _ _ Hwalk) as (_ & nl & np & Hnl & _ & Hnum & _).
  destruct (walk_laps_rows _ _ _ _ _ _ _ Hwalk) as (new_laps & new_points & -> & -> & Hlaps & Hpoints).
  simpl in *. subst nl. split; [|split].
  - rewrite <- list_fmap_compose.
    trans ((fun d : gmap string value => d !! "number") <$> new_laps).
    { apply list_fmap_ext. intros _ d _. simpl. by rewrite restrict_lookup. }
    rewrite Hnum, <- fmap_S_seq, <- list_fmap_compose. apply list_fmap_ext.
    intros _ i _. simpl. do 2 f_equal. lia.
  - rewrite <- list_fmap_compose. apply Forall2_fmap_r.
    eapply Forall2_impl; [exact Hlaps|]. intros lap r (d & k & Hd & ->).
    exists d. split; [done|]. simpl. apply restrict_without_number.
  - apply Forall2_fmap_r. eapply Forall2_impl; [exact Hpoints|].
    intros tp p (d & k & Hd & ->). exists d. split; [done|]. apply restrict_without_lap.
Qed.

End MoreWalkerProperties.

(** * Further properties of the aligner *)

Lemma key_le_total a b : key_le a b = false -> key_le b a = true.
Proof. destruct a, b; simpl; try done. intros ?%Z.leb_gt. apply Z.leb_le. lia. Qed.

Lemma key_le_trans a b c : key_le a b = true -> key_le b c = true -> key_le a c = true.
Proof.
  destruct a, b, c; simpl; try done. rewrite !Z.leb_le. lia.
Qed.

Lemma insert_row_sorted col x l :
  keys_sorted ((fun y : option value * gmap string value => time_of col y.2) <$> l) ->
  keys_sorted ((fun y : option value * gmap string value => time_of col y.2)
                 <$> insert_row col x l).
Proof.
  induction l as [|y l IH]; simpl; [by split|]. intros [Hall Hsorted].
  destruct (key_le (time_of col y.2) (time_of col x.2)) eqn:Hle; simpl.
  - split; [|by apply IH]. rewrite insert_row_perm. by constructor.
  - apply key_le_total in Hle. split; [|by split].
    constructor; [done|]. eapply Forall_impl; [exact Hall|].
    intros k Hk. by eapply key_le_trans.
Qed.

Lemma sort_values_sorted col df :
  keys_sorted (time_of col <$> rows (sort_values col df)).
Proof.
  simpl. rewrite <- list_fmap_compose.
  assert (forall l acc,
             keys_sorted ((fun y : option value * gmap string value => time_of col y.2) <$> acc) ->
             keys_sorted ((fun y : option value * gmap string value => time_of col y.2)
                            <$> foldl (fun acc x => insert_row col x acc) acc l)) as Hfold.
  { induction l as [|x l IH]; intros acc Hacc; simpl; [done|].
    by apply IH, insert_row_sorted. }
  by apply Hfold.
Qed.

Lemma pd_concat_OK frames df :
  pd_concat frames = OK df ->
  frames <> [] /\ rows df = concat (rows <$> frames) /\ index df = concat (index <$> frames).
Proof. destruct frames as [|f frames]; [done|]. by intros [= <-]. Qed.

(** X9: concatenating the tables of several files and sorting by a time
    column keeps every row (the sorted table is a rearrangement of the rows
    of the files) and puts the times in ascending order, rows without a
    time last. *)
Theorem concat_then_sort (frames : list DataFrame) (df : DataFrame) (col : string) :
  pd_concat frames = OK df ->
  Forall (fun f => length (index f) = length (rows f)) frames ->
  rows (sort_values col df) ≡ₚ concat (rows <$> frames) /\
  keys_sorted (time_of col <$> rows (sort_values col df)).
Proof.
  intros (_ & Hrows & Hindex)%pd_concat_OK Hwf. split; [|apply sort_values_sorted].
  rewrite <- Hrows. apply sort_values_rows_perm. rewrite Hrows, Hindex.
  clear Hrows Hindex. induction Hwf as [|f frames Hf _ IH]; [done|].
  rewrite !fmap_cons. cbn [concat]. rewrite !length_app. lia.
Qed.

Lemma timedelta_NaN_raises lg df :
  rows lg = [] \/ rows df = [] ->
  timedelta
    (total_seconds
       (g ← series_min (column_times lg "start_time");
        c ← series_min (column_times (sort_values "start_time" df) "start_time");
        Some (g - c))) = Raise ValueError.
Proof.
  intros [Hg|Hc].
  - assert (column_times lg "start_time" = []) as ->; [|done].
    unfold column_times. by rewrite Hg.
  - assert (column_times (sort_values "start_time" df) "start_time" = []) as ->.
    { unfold column_times. simpl. rewrite Hc. by destruct (index df). }
    by destruct (series_min (column_times lg "start_time")).
Qed.

(** X10: alignment needs laps on both sides: without a file of the rowing
    machine (an empty list of lap tables or of point tables), or when the
    wrist device or the rowing machine has no lap at all, the aligner
    raises instead of shifting by an arbitrary offset. *)
Theorem align_without_laps_raises
    (laps_df_garmin points_df_garmin : DataFrame)
    (laps_dfs_concept2 points_dfs_concept2 : list DataFrame) :
  laps_dfs_concept2 = [] \/ points_dfs_concept2 = [] \/
  rows laps_df_garmin = [] \/ concat (rows <$> laps_dfs_concept2) = [] ->
  raises (align laps_df_garmin points_df_garmin laps_dfs_concept2 points_dfs_concept2).
Proof.
  intros Hcase. unfold align.
  destruct (pd_concat laps_dfs_concept2) as [lc|e] eqn:Hlc; [|by exists e].
  destruct (pd_concat points_dfs_concept2) as [pc|e] eqn:Hpc; [|by exists e].
  unfold mbind at 1 2, result_bind. cbv beta iota zeta.
  apply pd_concat_OK in Hlc as (Hlne & Hlrows & _), Hpc as (Hpne & _).
  destruct Hcase as [?|[?|Hempty]]; [done | done |].
  rewrite (timedelta_NaN_raises laps_df_garmin lc); [by exists ValueError|].
  destruct Hempty as [?|Hc]; [by left | right; by rewrite Hlrows].
Qed.

(** *** When the merge returns, and what it keeps *)

Lemma merge_keys_times df on by_ ks :
  merge_keys df on by_ = OK ks -> ks.*1 = column_times df on.
Proof.
  unfold merge_keys, column_times. destruct (mapM _ (rows df)) as [ks'|] eqn:Hks; [|done].
  intros [= <-]. apply mapM_Some in Hks.
  induction Hks as [|r [t b] rws ks Hr _ IH]; [done|]. simpl.
  destruct (time_of on r) as [u|]; simplify_eq/=. by f_equal.
Qed.

Lemma merge_keys_is_OK df on by_ :
  Forall (fun r => is_Some (time_of on r)) (rows df) <-> is_OK (merge_keys df on by_).
Proof.
  unfold merge_keys. split.
  - intros Hall.
    assert (is_Some (mapM (fun r : gmap string value =>
                             (fun t => (t, r !! by_)) <$> time_of on r) (rows df))) as [ks ->];
      [|by eexists].
    apply mapM_is_Some. eapply Forall_impl; [exact Hall|].
    intros r [t Ht]. unfold compose. rewrite Ht. by eexists.
  - intros [ks Hks]. destruct (mapM _ (rows df)) as [ks'|] eqn:Hm; [|done].
    apply mapM_Some in Hm. clear Hks.
    induction Hm as [|r kv rws ks'' Hr _ IH]; constructor; [|done].
    destruct (time_of on r); [by eexists | done].
Qed.

Lemma sorted_column_monotonic col (rws : list (gmap string value)) :
  keys_sorted (time_of col <$> rws) -> is_monotonic (omap (time_of col) rws) = true.
Proof.
  induction rws as [|r rws IH]; [done|]. intros [Hall Hsorted]. simpl.
  destruct (time_of col r) as [x|]; [|by apply IH].
  apply is_monotonic_cons. split; [|by apply IH].
  apply Forall_forall. intros y (s & Hs & Hy)%list_elem_of_omap.
  rewrite Forall_forall in Hall. specialize (Hall (time_of col s)).
  rewrite Hy in Hall. apply Z.leb_le, Hall, list_elem_of_fmap. by exists s.
Qed.

Lemma is_monotonic_shift td l : is_monotonic ((fun t => t + td) <$> l) = is_monotonic l.
Proof.
  induction l as [|x [|y l] IH]; [done | done |].
  change (((x + td <=? y + td) && is_monotonic ((fun t => t + td) <$> y :: l))
          = ((x <=? y) && is_monotonic (y :: l))).
  rewrite IH. f_equal. destruct (Z.leb_spec x y), (Z.leb_spec (x + td) (y + td)); lia.
Qed.

Lemma time_of_shift col td (r : gmap string value) :
  time_of col (alter (add_timedelta td) col r) = (fun t => t + td) <$> time_of col r.
Proof. unfold time_of. rewrite lookup_alter_eq. by destruct (r !! col) as [[]|]. Qed.

Lemma column_times_shift col td df :
  column_times (shift_column col td df) col = (fun t => t + td) <$> column_times df col.
Proof.
  unfold column_times. cbn [rows shift_column]. induction (rows df) as [|r rws IH]; [done|].
  rewrite fmap_cons. cbn [omap list_omap]. rewrite time_of_shift.
  destruct (time_of col r); simpl; by rewrite IH.
Qed.

Lemma column_times_select cols df df' col :
  select cols df = OK df' -> col ∈ cols -> column_times df' col = column_times df col.
Proof.
  unfold select. destruct (forallb _ _); [|done]. intros [= <-] Hin.
  unfold column_times. cbn [rows]. induction (rows df) as [|r rws IH]; [done|].
  rewrite fmap_cons. cbn [omap list_omap].
  assert (time_of col (restrict cols r) = time_of col r) as ->
    by (unfold time_of; by rewrite restrict_lookup, decide_True).
  destruct (time_of col r); simpl; by rewrite IH.
Qed.

Lemma align_inv lg pg lcs pcs a :
  align lg pg lcs pcs = OK a ->
  exists lc pc,
    pd_concat lcs = OK lc /\ pd_concat pcs = OK pc /\
    laps_garmin a = lg /\ points_garmin a = pg /\
    laps_concept2 a = shift_column "start_time" (offset a) (sort_values "start_time" lc) /\
    points_concept2 a = shift_column "time" (offset a) (sort_values "time" pc).
Proof.
  unfold align. intros (lc & Hlc & (pc & Hpc & (td & _ & [= <-])%bind_OK)%bind_OK)%bind_OK.
  by exists lc, pc.
Qed.

(** After the alignment the times of the rowing machine ascend. *)
Lemma align_sorts_concept2 lg pg lcs pcs a :
  align lg pg lcs pcs = OK a ->
  is_monotonic (column_times (points_concept2 a) "time") = true.
Proof.
  intros (lc & pc & _ & _ & _ & _ & _ & ->)%align_inv.
  rewrite column_times_shift, is_monotonic_shift.
  apply sorted_column_monotonic, sort_values_sorted.
Qed.

Lemma select_OK cols df :
  Forall (fun c => c ∈ columns df) cols ->
  select cols df = OK {| index_name := index_name df; index := index df;
                         columns := cols; rows := restrict cols <$> rows df |}.
Proof.
  intros Hall. unfold select.
  assert (forallb (fun c => bool_decide (c ∈ columns df)) cols = true) as ->; [|done].
  apply forallb_forall. intros c Hc%list_elem_of_In.
  rewrite Forall_forall in Hall. by apply bool_decide_eq_true, Hall.
Qed.

Lemma restrict_rows_times cols (rws : list (gmap string value)) :
  "time" ∈ cols ->
  Forall (fun r => is_Some (time_of "time" r)) rws ->
  Forall (fun r => is_Some (time_of "time" r)) (restrict cols <$> rws).
Proof.
  intros Hin Hall. apply Forall_fmap. eapply Forall_impl; [exact Hall|].
  intros r Hr. simpl. by rewrite restrict_time_of.
Qed.

(** X11: the times of the rowing machine are sorted by the script, those of
    the wrist device are not: for two non-empty point tables with the
    columns of [get_dataframes] and a time in every row, the merge returns
    exactly when the track points of the wrist device are in ascending
    order of time, and raises ValueError otherwise. *)
Theorem merge_needs_sorted_wrist_times
    (laps_df_garmin points_df_garmin : DataFrame)
    (laps_dfs_concept2 points_dfs_concept2 : list DataFrame) (a : alignment) :
  align laps_df_garmin points_df_garmin laps_dfs_concept2 points_dfs_concept2 = OK a ->
  columns points_df_garmin = TRACKPOINT_COLUMN_NAMES ->
  columns (points_concept2 a) = TRACKPOINT_COLUMN_NAMES ->
  rows points_df_garmin <> [] ->
  rows (points_concept2 a) <> [] ->
  Forall (fun r => is_Some (time_of "time" r)) (rows points_df_garmin) ->
  Forall (fun r => is_Some (time_of "time" r)) (rows (points_concept2 a)) ->
  (is_OK (merged_dataframe a) <-> is_monotonic (column_times points_df_garmin "time") = true) /\
  (is_monotonic (column_times points_df_garmin "time") = false ->
   merged_dataframe a = Raise ValueError).
Proof.
  intros Halign Hgcols Hccols _ _ Hgtimes Hctimes.
  pose proof (align_sorts_concept2 _ _ _ _ _ Halign) as Hsorted.
  apply align_inv in Halign as (_ & _ & _ & _ & _ & Hpg & _ & _).
  assert (exists m0, merged_dataframe a =
                     if is_monotonic (column_times points_df_garmin "time")
                     then OK m0 else Raise ValueError) as [m0 ->];
    [|destruct (is_monotonic (column_times points_df_garmin "time"));
      split; [split; [done | by eexists] | done | split; [by intros [m [=]] | done] | done]].
  unfold merged_dataframe. rewrite Hpg.
  rewrite (select_OK ["time"; "distance"; "watt"; "cadence"]) by (rewrite Hccols; compute_done).
  rewrite (select_OK ["time"; "heart_rate"]) by (rewrite Hgcols; compute_done).
  unfold mbind at 1 2, result_bind. cbv beta iota.
  set (left := {| index_name := index_name (points_concept2 a) |}).
  set (right := {| index_name := index_name points_df_garmin |}).
  assert (Forall (fun r => is_Some (time_of "time" r)) (rows left)) as Hl
    by (apply restrict_rows_times; [compute_done | done]).
  assert (Forall (fun r => is_Some (time_of "time" r)) (rows right)) as Hr
    by (apply restrict_rows_times; [compute_done | done]).
  apply (merge_keys_is_OK left "time" "time") in Hl as [lk Hlk].
  apply (merge_keys_is_OK right "time" "time") in Hr as [rk Hrk].
  unfold merge_asof. rewrite Hlk, Hrk. unfold mbind, result_bind. cbv beta iota.
  rewrite (merge_keys_times _ _ _ _ Hlk), (merge_keys_times _ _ _ _ Hrk).
  assert (column_times left "time" = column_times (points_concept2 a) "time") as ->.
  { apply (column_times_select ["time"; "distance"; "watt"; "cadence"]); [|compute_done].
    apply select_OK. rewrite Hccols. compute_done. }
  assert (column_times right "time" = column_times points_df_garmin "time") as ->.
  { apply (column_times_select ["time"; "heart_rate"]); [|compute_done].
    apply select_OK. rewrite Hgcols. compute_done. }
  rewrite Hsorted. simpl.
  destruct (is_monotonic (column_times points_df_garmin "time")); by eexists.
Qed.

Lemma merge_row_other right samples l j c :
  rows right = restrict ["time"; "heart_rate"] <$> samples ->
  c <> "heart_rate" ->
  merge_row right "time" "time" l j !! c = l !! c.
Proof.
  intros Hrows Hc. unfold merge_row. destruct (j <? 0); [done|].
  rewrite Hrows, list_lookup_fmap. destruct (samples !! Z.to_nat j) as [s|]; [|done]. simpl.
  destruct (l !! c) as [v|] eqn:Hl; [by apply lookup_union_Some_l|].
  rewrite lookup_union_r by done. destruct (decide (c = "time")) as [->|Hne].
  - by rewrite lookup_delete_eq.
  - rewrite !lookup_delete_ne, restrict_lookup by done. apply decide_False.
    rewrite !elem_of_cons, elem_of_nil. tauto.
Qed.

Lemma merged_dataframe_inv a m :
  merged_dataframe a = OK m ->
  exists right idx,
    rows right = restrict ["time"; "heart_rate"] <$> rows (points_garmin a) /\
    length idx = length (rows (points_concept2 a)) /\
    columns m = ["time"; "distance"; "watt"; "cadence"; "heart_rate"] /\
    rows m = zip_with (merge_row right "time" "time")
               (restrict ["time"; "distance"; "watt"; "cadence"] <$> rows (points_concept2 a)) idx.
Proof.
  unfold merged_dataframe.
  intros (left & Hl & (right & Hr & Hmerge)%bind_OK)%bind_OK.
  unfold select in Hl, Hr.
  destruct (forallb _ _); [|done]. destruct (forallb _ _); [|done].
  injection Hl as <-. injection Hr as <-. revert Hmerge. unfold merge_asof.
  intros (lk & Hlk & (rk & Hrk & Hm)%bind_OK)%bind_OK.
  destruct (is_monotonic lk.*1 && is_monotonic rk.*1) eqn:Hmono; [|done].
  apply andb_true_iff in Hmono as [Hleft Hright]. injection Hm as <-.
  pose proof (merge_keys_times _ _ _ _ Hlk) as Hlt.
  apply merge_keys_by_on in Hlk as [Hlk Hltimes], Hrk as [Hrk _].
  rewrite Hlk, Hrk.
  pose proof (asof_join_by_on_exact _ _ Hleft Hright) as Hexact%Forall2_length.
  apply Forall2_length in Hltimes. simpl in Hltimes. rewrite length_fmap in Hltimes.
  eexists _, _. split; [|split; [|split]]; [| |reflexivity|reflexivity]; [done|].
  by rewrite <- Hexact, <- Hltimes.
Qed.

(** X12: the merge keeps the rows of the rowing machine: the merged table
    has the columns time, distance, watt, cadence, heart_rate and one row
    per point of the rowing machine, in the same order, with that point's
    time, distance, watt and cadence; nothing but the heart rate comes
    from the wrist device. *)
Theorem merge_keeps_rowing_rows (a : alignment) (m : DataFrame) :
  merged_dataframe a = OK m ->
  columns m = ["time"; "distance"; "watt"; "cadence"; "heart_rate"] /\
  Forall2 (fun (row mr : gmap string value) =>
             forall c, c <> "heart_rate" ->
                       mr !! c = restrict ["time"; "distance"; "watt"; "cadence"] row !! c)
    (rows (points_concept2 a)) (rows m).
Proof.
  intros (right & idx & Hright & Hlen & Hcols & ->)%merged_dataframe_inv.
  split; [done|]. revert idx Hlen.
  induction (rows (points_concept2 a)) as [|row rws IH]; intros [|j idx] Hlen;
    simplify_eq/=; constructor; [|by apply IH].
  intros c Hc. by eapply merge_row_other.
Qed.

(** X13: the heart rate of a merged row is that of a sample of the wrist
    device with exactly the time of the row: when no sample has that time
    the heart rate is missing, and otherwise it is the heart rate of the
    last sample with that time. *)
Theorem merge_attaches_heart_rate_of_equal_time (a : alignment) (m : DataFrame) :
  merged_dataframe a = OK m ->
  Forall2 (fun (row : gmap string value) h =>
             exists t, time_of "time" row = Some t /\
               ((forall s, s ∈ rows (points_garmin a) -> time_of "time" s <> Some t) ->
                h = None) /\
               (forall i s, rows (points_garmin a) !! i = Some s ->
                  time_of "time" s = Some t ->
                  (forall i' s', (i < i')%nat -> rows (points_garmin a) !! i' = Some s' ->
                                 time_of "time" s' <> Some t) ->
                  h = s !! "heart_rate"))
    (rows (points_concept2 a)) (heart_rates m).
Proof.
  intros Hm. eapply Forall2_impl; [exact (merged_dataframe_exact_times a m Hm)|].
  intros row h (t & Ht & ->). exists t. split; [done|]. unfold same_time_heart_rate. split.
  - intros Hnone. rewrite filter_none; [done|]. intros j s Hs.
    apply bool_decide_eq_false, Hnone. by eapply list_elem_of_lookup_2.
  - intros i s Hs Hst Hlast.
    rewrite (last_filter_found _ _ i s); [done | done | by apply bool_decide_eq_true |].
    intros i' s' Hi' Hs'. apply bool_decide_eq_false. by eapply Hlast.
Qed.

(** *** The duration and its clock reading *)

Lemma dt_seconds_spec td :
  0 <= dt_seconds td < 86400 /\
  exists days us, td = (days * 86400 + dt_seconds td) * 1000000 + us /\ 0 <= us < 1000000.
Proof.
  unfold dt_seconds. split; [apply Z.mod_pos_bound; lia|].
  exists (td / 1000000 / 86400), (td mod 1000000). split; [|apply Z.mod_pos_bound; lia].
  pose proof (Z.div_mod td 1000000). pose proof (Z.div_mod (td / 1000000) 86400). lia.
Qed.

(** X14: the duration column: on an empty merged table the script raises
    IndexError (there is no first row); otherwise every row that has a time
    gets the whole seconds elapsed since the first row, counted within the
    day: elapsed = days * 86400 s + duration + a fraction of a second, with
    0 <= duration < 86400.  The first row gets 0, a row less than a day
    after the first its elapsed whole seconds, and whole days are dropped. *)
Theorem duration_is_elapsed_seconds_within_a_day (m : DataFrame) :
  (rows m = [] -> add_duration m = Raise IndexError) /\
  (forall first rest t0,
     rows m = first :: rest -> time_of "time" first = Some t0 ->
     exists r,
       add_duration m = OK r /\ merged r = m /\
       head (duration r) = Some (Some 0) /\
       Forall2 (fun (row : gmap string value) d =>
                  forall t, time_of "time" row = Some t ->
                    exists s, d = Some s /\ 0 <= s < 86400 /\
                      (exists days us,
                         t - t0 = (days * 86400 + s) * 1000000 + us /\ 0 <= us < 1000000) /\
                      (0 <= t - t0 < 86400 * 1000000 -> s = (t - t0) / 1000000))
         (rows m) (duration r)).
Proof.
  split.
  - intros Hrows. unfold add_duration. by rewrite Hrows.
  - intros first rest t0 Hrows Hfirst. unfold add_duration. rewrite Hrows.
    eexists. split; [reflexivity|]. cbn [merged duration]. split; [done|]. split.
    + rewrite fmap_cons. simpl. rewrite Hfirst. simpl. by rewrite Z.sub_diag.
    + apply Forall2_fmap_r, Forall_Forall2_diag, Forall_forall. intros row _ t Ht.
      rewrite Ht, Hfirst. simpl. exists (dt_seconds (t - t0)). split; [done|].
      destruct (dt_seconds_spec (t - t0)) as [Hrange Hdiv]. split; [done|]. split; [done|].
      intros Hday. unfold dt_seconds. apply Z.mod_small. split.
      * apply Z.div_pos; lia.
      * apply Z.div_lt_upper_bound; lia.
Qed.

Lemma add_duration_inv m r :
  add_duration m = OK r ->
  exists first,
    head (rows m) = Some first /\ merged r = m /\
    duration r =
      (fun row : gmap string value =>
         (t ← time_of "time" row; t0 ← time_of "time" first; Some (dt_seconds (t - t0)))
         : option Z)
        <$> rows m /\
    hhmmss_1 r = (fmap clock_time : option Z -> option (Z * Z * Z)) <$> duration r.
Proof.
  unfold add_duration. destruct (rows m) as [|first rest] eqn:Hrows; [done|].
  intros [= <-]. by exists first.
Qed.

Lemma clock_time_spec s :
  0 <= s < 86400 ->
  exists h mi se,
    clock_time s = (h, mi, se) /\ s = h * 3600 + mi * 60 + se /\
    0 <= h < 24 /\ 0 <= mi < 60 /\ 0 <= se < 60.
Proof.
  intros Hrange. unfold clock_time.
  exists ((s / 3600) mod 24), ((s / 60) mod 60), (s mod 60). split; [done|].
  pose proof (Z.div_mod s 60). pose proof (Z.div_mod (s / 60) 60).
  assert (s / 3600 = s / 60 / 60) as Hh by (rewrite Z.div_div by lia; done).
  assert (0 <= s / 3600 < 24)
    by (split; [apply Z.div_pos; lia | apply Z.div_lt_upper_bound; lia]).
  assert ((s / 3600) mod 24 = s / 3600) as -> by (by apply Z.mod_small).
  pose proof (Z.mod_pos_bound s 60). pose proof (Z.mod_pos_bound (s / 60) 60).
  repeat split; lia.
Qed.

(** X15: the clock column reads the duration as a time of day: hour, minute
    and second with hour * 3600 + minute * 60 + second = duration and hour
    below 24, for every duration the script can produce; a row without a
    duration has no clock reading. *)
Theorem clock_reads_duration (m : DataFrame) (r : report) :
  add_duration m = OK r ->
  Forall2 (fun d c =>
             match d with
             | None => c = None
             | Some s =>
                 exists h mi se,
                   c = Some (h, mi, se) /\ s = h * 3600 + mi * 60 + se /\
                   0 <= h < 24 /\ 0 <= mi < 60 /\ 0 <= se < 60
             end)
    (duration r) (hhmmss_1 r).
Proof.
  intros (first & _ & _ & Hduration & ->)%add_duration_inv.
  apply Forall2_fmap_r, Forall_Forall2_diag, Forall_forall. intros d Hd.
  rewrite Hduration in Hd. apply list_elem_of_fmap in Hd as (row & -> & _).
  destruct (time_of "time" row) as [t|]; [|done].
  destruct (time_of "time" first) as [t0|]; [|done]. simpl.
  destruct (dt_seconds_spec (t - t0)) as [Hrange _].
  destruct (clock_time_spec _ Hrange) as (h & mi & se & -> & Hsum & Hh & Hmi & Hse).
  by exists h, mi, se.
Qed.

(** X16: without a single track point of the rowing machine the script does
    not produce a report: lines 163 to 202 raise. *)
Theorem report_without_rowing_points_raises
    (laps_df_garmin points_df_garmin : DataFrame)
    (laps_dfs_concept2 points_dfs_concept2 : list DataFrame) :
  concat (rows <$> points_dfs_concept2) = [] ->
  raises (aligned_report laps_df_garmin points_df_garmin laps_dfs_concept2 points_dfs_concept2).
Proof.
  intros Hempty. unfold aligned_report.
  destruct (align _ _ _ _) as [a|e] eqn:Ha; [|by exists e].
  apply align_inv in Ha as (lc & pc & _ & (_ & Hpc & _)%pd_concat_OK & _ & _ & _ & Hpoints).
  unfold mbind at 1, result_bind at 1.
  destruct (merged_dataframe a) as [m|e] eqn:Hm; [|by exists e].
  apply merged_dataframe_inv in Hm as (right & idx & _ & _ & _ & Hrows).
  assert (rows (points_concept2 a) = []) as Hnone.
  { rewrite Hpoints. cbn [rows shift_column sort_values]. rewrite Hpc, Hempty.
    by destruct (index pc). }
  rewrite Hnone in Hrows. exists IndexError. unfold mbind, result_bind, add_duration.
  by rewrite Hrows.
Qed.

(** * The loop over the directory *)

Section LoaderProperties.
Context {rt : Runtime}.
Lemma load_file_irrelevant st file :
  relevant file = false -> load_file st file = OK st.
Proof.
  unfold relevant, load_file. intros [-> ->]%orb_false_iff. done.
Qed.

Lemma load_file_raises st file :
  relevant file = true -> raises (get_dataframes file.2) -> raises (load_file st file).
Proof.
  unfold relevant, load_file. intros Hrel [e He]. rewrite He.
  destruct (startswith file.1 "concept2"); simpl; [by exists e|].
  simpl in Hrel. rewrite Hrel. by exists e.
Qed.

Lemma for_each_load_irrelevant files st :
  for_each load_file (List.filter relevant files) st = for_each load_file files st.
Proof.
  revert st. induction files as [|f files IH]; intros st; [done|]. simpl.
  destruct (relevant f) eqn:Hf; simpl.
  - destruct (load_file st f); simpl; [apply IH | done].
  - rewrite (load_file_irrelevant st f Hf). simpl. apply IH.
Qed.

(** X17: the loop reads only the files whose name starts with concept2 or
    with activity: every other directory entry is skipped without being
    looked at, so it changes nothing, whatever it holds; a file that is
    read and on which [get_dataframes] raises ends the run. *)
Theorem load_files_reads_prefixed_files_only (files : list (string * Element)) :
  load_files (List.filter relevant files) = load_files files /\
  (forall file, file ∈ files -> relevant file = true ->
                raises (get_dataframes file.2) -> raises (load_files files)).
Proof.
  split; [apply for_each_load_irrelevant|].
  intros file Hin Hrel Hraise. unfold load_files. apply for_each_raises with file; [done|].
  intros st. by apply load_file_raises.
Qed.

Lemma load_file_OK st file st' :
  load_file st file = OK st' ->
  (if startswith file.1 "concept2"
   then exists t, get_dataframes file.2 = OK t /\
                  laps_df_concept2_list st' = laps_df_concept2_list st ++ [t.1] /\
                  points_df_concept2_list st' = points_df_concept2_list st ++ [t.2]
   else laps_df_concept2_list st' = laps_df_concept2_list st /\
        points_df_concept2_list st' = points_df_concept2_list st) /\
  (if startswith file.1 "activity"
   then exists t, get_dataframes file.2 = OK t /\ garmin_tables st' = Some t
   else garmin_tables st' = garmin_tables st).
Proof.
  unfold load_file. intros (st1 & H1 & H2)%bind_OK.
  destruct (startswith file.1 "concept2"), (startswith file.1 "activity").
  - apply bind_OK in H1 as (t & Ht & [= <-]). apply bind_OK in H2 as (t' & Ht' & [= <-]).
    split; [by exists t | by exists t'].
  - apply bind_OK in H1 as (t & Ht & [= <-]). injection H2 as <-. split; [by exists t | done].
  - injection H1 as <-. apply bind_OK in H2 as (t' & Ht' & [= <-]). split; [done | by exists t'].
  - injection H1 as <-. by injection H2 as <-.
Qed.

Lemma for_each_load_OK files st st' :
  for_each load_file files st = OK st' ->
  exists tables,
    Forall2 (fun (f : string * Element) t => get_dataframes f.2 = OK t)
      (List.filter (fun f => startswith f.1 "concept2") files) tables /\
    laps_df_concept2_list st' = laps_df_concept2_list st ++ tables.*1 /\
    points_df_concept2_list st' = points_df_concept2_list st ++ tables.*2 /\
    match last (List.filter (fun f => startswith f.1 "activity") files) with
    | Some f => exists t, get_dataframes f.2 = OK t /\ garmin_tables st' = Some t
    | None => garmin_tables st' = garmin_tables st
    end.
Proof.
  revert st. induction files as [|f files IH]; intros st.
  - intros [= <-]. exists []. rewrite !app_nil_r. by repeat split; try constructor.
  - simpl. intros (st1 & (Hc & Ha)%load_file_OK & (tables & Htables & Hlaps & Hpoints & Hg)%IH)%bind_OK.
    assert (match last (List.filter (fun f => startswith f.1 "activity") (f :: files)) with
            | Some f => exists t, get_dataframes f.2 = OK t /\ garmin_tables st' = Some t
            | None => garmin_tables st' = garmin_tables st
            end) as Hgarmin.
    { simpl. destruct (startswith f.1 "activity").
      - rewrite last_cons.
        destruct (last (List.filter (fun f => startswith f.1 "activity") files)); [done|].
        destruct Ha as (t & Ht & Hst1). exists t. split; [done|]. by rewrite Hg.
      - destruct (last (List.filter (fun f => startswith f.1 "activity") files)); [done|].
        by rewrite Hg. }
    destruct (startswith f.1 "concept2").
    + destruct Hc as (t & Ht & Hl1 & Hp1). exists (t :: tables).
      rewrite Hlaps, Hpoints, Hl1, Hp1, <- !app_assoc. repeat split; try done.
      by constructor.
    + destruct Hc as [Hl1 Hp1]. exists tables. rewrite Hlaps, Hpoints, Hl1, Hp1.
      by repeat split.
Qed.

(** X18: what the loop hands to the aligner: the lap tables and the point
    tables of the concept2 files, file by file in the order of the
    directory listing, and the tables of the LAST activity file of the
    listing (earlier ones are read and replaced); with no activity file
    there are no tables of the wrist device. *)
Theorem load_files_collects (files : list (string * Element)) (st : loaded) :
  load_files files = OK st ->
  exists tables,
    Forall2 (fun (f : string * Element) t => get_dataframes f.2 = OK t)
      (List.filter (fun f => startswith f.1 "concept2") files) tables /\
    laps_df_concept2_list st = tables.*1 /\
    points_df_concept2_list st = tables.*2 /\
    match last (List.filter (fun f => startswith f.1 "activity") files) with
    | Some f => exists t, get_dataframes f.2 = OK t /\ garmin_tables st = Some t
    | None => garmin_tables st = None
    end.
Proof. intros Hload. by apply for_each_load_OK in Hload. Qed.

End LoaderProperties.

(** * Further runs on the sample documents *)

Section MoreRuns.
Import Fixture.
#[local] Existing Instance runtime.

Ltac child := vm_compute; repeat first [apply list_elem_of_here | apply list_elem_of_further].
Ltac found := apply find_first_child; vm_compute; reflexivity.

Lemma naive_timestamp_raises_witness :
  convert_local (Some "2022-01-03T14:00:00") = Raise TypeError /\
  get_tcx_lap_data lap_naive = Raise TypeError.
Proof.
  destruct (naive_timestamp_raises "2022-01-03T14:00:00" 1641218400000000) as (Hconv & Hlap & _).
  { vm_compute. reflexivity. }
  split; [exact Hconv|]. apply Hlap. vm_compute. reflexivity.
Defined.

Lemma convert_local_same_instant_witness :
  convert_local (Some "2022-01-03T14:00:00Z") = OK 1641222000000000 /\
  convert_local (Some "2022-01-03T15:00:00+01:00") = convert_local (Some "2022-01-03T14:00:00Z").
Proof.
  assert (to_datetime "2022-01-03T14:00:00Z"
          = OK {| wall := 1641218400000000; utcoffset := Some 0 |}) as H1
    by (vm_compute; reflexivity).
  assert (to_datetime "2022-01-03T15:00:00+01:00"
          = OK {| wall := 1641222000000000; utcoffset := Some 3600000000 |}) as H2
    by (vm_compute; reflexivity).
  exact (convert_local_same_instant _ _ _ _ 0 3600000000 H1 H2 eq_refl eq_refl eq_refl).
Defined.

Lemma lap_without_start_time_raises_witness :
  get_tcx_lap_data lap_no_start = Raise KeyError /\
  forall st, walk_lap st lap_no_start = Raise KeyError.
Proof. apply lap_without_start_time_raises. vm_compute. reflexivity. Defined.



Lemma heart_rate_without_value_raises_witness :
  raises (get_tcx_lap_data lap_hr_no_value).
Proof.
  destruct (heart_rate_without_value_raises (node (ns "MaximumHeartRateBpm") [])) as [Hlap _];
    [constructor|].
  apply Hlap. left. found.
Defined.

Lemma failing_node_fails_file_witness :
  raises (get_dataframes doc_bad_point).
Proof.
  destruct (failing_node_fails_file doc_bad_point activity_bad_point eq_refl) as [_ Hpoint].
  apply (Hpoint point_no_time); [child|].
  exists AttributeError. vm_compute. reflexivity.
Defined.

Lemma tables_follow_document_order_witness :
  exists laps_df points_df,
    get_dataframes doc_two_laps = OK (laps_df, points_df) /\
    index laps_df = [Some (VInt 1); Some (VInt 2)] /\
    length (rows laps_df) = 2%nat /\
    length (rows points_df) = 3%nat.
Proof.
  destruct (get_dataframes doc_two_laps) as [[laps_df points_df]|e] eqn:Hget;
    [|vm_compute in Hget; discriminate].
  destruct (tables_follow_document_order doc_two_laps activity_two_laps laps_df points_df
              eq_refl Hget) as (Hindex & Hlaps%Forall2_length & Hpoints%Forall2_length).
  exists laps_df, points_df. split; [reflexivity|]. split; [exact Hindex|].
  split; [by rewrite <- Hlaps | by rewrite <- Hpoints].
Defined.

Lemma concat_then_sort_witness :
  exists df,
    pd_concat [points_table [stroke 5 150; stroke 1 140]; points_table [stroke 3 145]] = OK df /\
    rows (sort_values "time" df)
      ≡ₚ concat (rows <$> [points_table [stroke 5 150; stroke 1 140];
                           points_table [stroke 3 145]]) /\
    keys_sorted (time_of "time" <$> rows (sort_values "time" df)).
Proof.
  eexists. split; [reflexivity|].
  apply (concat_then_sort
           [points_table [stroke 5 150; stroke 1 140]; points_table [stroke 3 145]]);
    [reflexivity | repeat constructor].
Defined.

Lemma align_without_laps_raises_witness :
  raises (align (laps_table []) (points_table [sample 0 100])
                [laps_table [35880]] [points_table [stroke 35880 150]]) /\
  raises (align (laps_table [36005]) (points_table [sample 0 100]) [] []).
Proof.
  split; apply align_without_laps_raises.
  - right. right. left. reflexivity.
  - left. reflexivity.
Defined.

Lemma merge_needs_sorted_wrist_times_witness :
  exists a,
    align (laps_table [0]) (points_table [sample 10 110; sample 0 100])
          [laps_table [0]] [points_table [stroke 12 160; stroke 3 150]] = OK a /\
    merged_dataframe a = Raise ValueError.
Proof.
  destruct (align (laps_table [0]) (points_table [sample 10 110; sample 0 100])
                  [laps_table [0]] [points_table [stroke 12 160; stroke 3 150]])
    as [a|e] eqn:Ha; [|vm_compute in Ha; discriminate].
  exists a. split; [reflexivity|].
  pose proof Ha as Hvalue. vm_compute in Hvalue. injection Hvalue as <-.
  apply (merge_needs_sorted_wrist_times _ _ _ _ _ Ha);
    [reflexivity | reflexivity | discriminate | discriminate
    | compute_done | compute_done | vm_compute; reflexivity].
Defined.

Lemma merge_keeps_rowing_rows_witness :
  exists m,
    merged_dataframe aligned_sample = OK m /\
    columns m = ["time"; "distance"; "watt"; "cadence"; "heart_rate"] /\
    length (rows m) = 2%nat.
Proof.
  destruct (merged_dataframe aligned_sample) as [m|e] eqn:Hm;
    [|vm_compute in Hm; discriminate].
  destruct (merge_keeps_rowing_rows aligned_sample m Hm) as [Hcols Hrows%Forall2_length].
  exists m. split; [reflexivity|]. split; [exact Hcols | by rewrite <- Hrows].
Defined.

Lemma merge_attaches_heart_rate_of_equal_time_witness :
  exists m,
    merged_dataframe aligned_sample = OK m /\
    Forall2 (fun (row : gmap string value) h =>
               exists t, time_of "time" row = Some t /\
                 ((forall s, s ∈ rows (points_garmin aligned_sample) ->
                             time_of "time" s <> Some t) -> h = None) /\
                 (forall i s, rows (points_garmin aligned_sample) !! i = Some s ->
                    time_of "time" s = Some t ->
                    (forall i' s', (i < i')%nat ->
                       rows (points_garmin aligned_sample) !! i' = Some s' ->
                       time_of "time" s' <> Some t) ->
                    h = s !! "heart_rate"))
      (rows (points_concept2 aligned_sample)) (heart_rates m).
Proof.
  destruct (merged_dataframe aligned_sample) as [m|e] eqn:Hm;
    [|vm_compute in Hm; discriminate].
  exists m. split; [reflexivity|].
  exact (merge_attaches_heart_rate_of_equal_time aligned_sample m Hm).
Defined.

Lemma duration_is_elapsed_seconds_within_a_day_witness :
  exists r,
    add_duration merged_long = OK r /\
    head (duration r) = Some (Some 0) /\
    length (duration r) = 3%nat.
Proof.
  destruct (duration_is_elapsed_seconds_within_a_day merged_long) as [_ Hrows].
  destruct (Hrows (restrict TRACKPOINT_COLUMN_NAMES (stroke 100 150))
              [restrict TRACKPOINT_COLUMN_NAMES (stroke 3825 155);
               restrict TRACKPOINT_COLUMN_NAMES (stroke 86505 160)]
              (seconds 100) eq_refl)
    as (r & Hr & _ & Hhead & Hall%Forall2_length); [vm_compute; reflexivity|].
  exists r. split; [exact Hr|]. split; [exact Hhead | by rewrite <- Hall].
Defined.

Lemma clock_reads_duration_witness :
  exists r,
    add_duration merged_long = OK r /\
    Forall2 (fun d c =>
               match d with
               | None => c = None
               | Some s =>
                   exists h mi se,
                     c = Some (h, mi, se) /\ s = h * 3600 + mi * 60 + se /\
                     0 <= h < 24 /\ 0 <= mi < 60 /\ 0 <= se < 60
               end)
      (duration r) (hhmmss_1 r).
Proof.
  destruct (add_duration merged_long) as [r|e] eqn:Hr; [|vm_compute in Hr; discriminate].
  exists r. split; [reflexivity|]. exact (clock_reads_duration merged_long r Hr).
Defined.

(** The durations and clock readings of the sample that spans a day: 0 s,
    3725 s read as 01:02:05, and 24 h and 5 s read as 5 s. *)
Example durations_of_merged_long :
  (fun r => (duration r, hhmmss_1 r)) <$> add_duration merged_long
  = OK ([Some 0; Some 3725; Some 5], [Some (0, 0, 0); Some (1, 2, 5); Some (0, 0, 5)]).
Proof. vm_compute. reflexivity. Qed.

Lemma report_without_rowing_points_raises_witness :
  raises (aligned_report (laps_table [0]) (points_table [sample 0 100])
                         [laps_table [0]] [points_table []]).
Proof. apply report_without_rowing_points_raises. reflexivity. Defined.

Lemma load_files_reads_prefixed_files_only_witness :
  load_files (List.filter relevant directory) = load_files directory /\
  raises (load_files directory_broken).
Proof.
  split.
  - apply (load_files_reads_prefixed_files_only directory).
  - destruct (load_files_reads_prefixed_files_only directory_broken) as [_ Hraise].
    apply (Hraise ("activity_1.tcx", doc_bad_point)); [child | reflexivity |].
    exists AttributeError. vm_compute. reflexivity.
Defined.

Lemma load_files_collects_witness :
  exists st t,
    load_files directory = OK st /\
    length (laps_df_concept2_list st) = 2%nat /\
    get_dataframes doc_two_laps = OK t /\ garmin_tables st = Some t.
Proof.
  destruct (load_files directory) as [st|e] eqn:Hst; [|vm_compute in Hst; discriminate].
  destruct (load_files_collects directory st Hst) as (tables & Htables & Hlaps & _ & Hgarmin).
  simpl in Hgarmin. destruct Hgarmin as (t & Ht & Hg).
  exists st, t. split; [reflexivity|]. split; [|by split].
  apply Forall2_length in Htables. rewrite Hlaps, length_fmap, <- Htables. reflexivity.
Defined.

End MoreRuns.
